(** * go-project-config: the [cfg] package

    A shallow embedding of the generator of package [cfg]
    (cfg.go, string.go, fs.go, linereader.go, template.go, formatter.go and
    the template constants) together with the properties of its specification.

    Go strings are byte strings; they are modelled as [string], one [ascii]
    per byte.  The functions of the package that return [(T, error)] return a
    pair [T * option error] ([None] is the nil error), as the Go code does.
    The methods behind the package's interfaces return [error + T]: every
    caller tests the error first and drops the other result when it is set. *)

From Stdlib Require Import Ascii String List Bool Arith Lia.
From stdpp Require Import base strings list gmap.

Local Open Scope stdpp_scope.
Local Open Scope list_scope.

(** ** Bytes with a name *)

Definition dq : string := String (ascii_of_nat 34) EmptyString.
Definition tab : string := String (ascii_of_nat 9) EmptyString.
Definition nl : string := String (ascii_of_nat 10) EmptyString.
Definition underscore : ascii := ascii_of_nat 95.
Definition equals : ascii := ascii_of_nat 61.

(** ** Package [strings] of the Go library, for one-byte separators

    Both call sites in the package pass a separator of one byte
    ([Split(s, "_")] and [SplitN(line, "=", 2)]), so the separator is
    an [ascii] here. *)

Module strings.

(** [strings.Count(s, sep)]. *)
Fixpoint Count (s : string) (sep : ascii) : nat :=
  match s with
  | EmptyString => 0
  | String c s' => (if Ascii.eqb c sep then 1 else 0) + Count s' sep
  end.

(** [strings.Cut(s, sep)]: the text before and after the first [sep],
    [None] when [sep] does not occur ([Index(s, sep) < 0]). *)
Fixpoint Cut (s : string) (sep : ascii) : option (string * string) :=
  match s with
  | EmptyString => None
  | String c s' =>
      if Ascii.eqb c sep then Some (EmptyString, s')
      else match Cut s' sep with
           | Some (before, after) => Some (String c before, after)
           | None => None
           end
  end.

(** [genSplit(s, sep, 0, n)] for [n >= 0]: at most [n] pieces, the last one
    holding the unsplit rest. *)
Fixpoint SplitN (s : string) (sep : ascii) (n : nat) : list string :=
  match n with
  | 0 => []
  | S n' =>
      match n' with
      | 0 => [s]
      | S _ =>
          match Cut s sep with
          | None => [s]
          | Some (before, after) => before :: SplitN after sep n'
          end
      end
  end.

(** [strings.Split(s, sep)] is [genSplit(s, sep, 0, -1)], which sets
    [n = Count(s, sep) + 1]. *)
Definition Split (s : string) (sep : ascii) : list string :=
  SplitN s sep (Count s sep + 1).

(** [strings.Join(elems, sep)]. *)
Fixpoint Join (elems : list string) (sep : string) : string :=
  match elems with
  | [] => EmptyString
  | [e] => e
  | e :: es => e +:+ sep +:+ Join es sep
  end.

Definition isUpper (c : ascii) : bool :=
  (65 <=? nat_of_ascii c) && (nat_of_ascii c <=? 90).
Definition isLower (c : ascii) : bool :=
  (97 <=? nat_of_ascii c) && (nat_of_ascii c <=? 122).

Definition toLowerByte (c : ascii) : ascii :=
  if isUpper c then ascii_of_nat (nat_of_ascii c + 32) else c.
Definition toUpperByte (c : ascii) : ascii :=
  if isLower c then ascii_of_nat (nat_of_ascii c - 32) else c.

(** [strings.ToLower(s)] on ASCII text: ['A'..'Z'] move to ['a'..'z'],
    every other byte is kept. *)
Fixpoint ToLower (s : string) : string :=
  match s with
  | EmptyString => EmptyString
  | String c s' => String (toLowerByte c) (ToLower s')
  end.

(** [strings.Contains(s, substr)]. *)
Fixpoint Contains (s substr : string) : bool :=
  String.prefix substr s ||
  match s with
  | EmptyString => false
  | String _ s' => Contains s' substr
  end.

End strings.

(** ** [cases.Title(language.Und)] of golang.org/x/text, on ASCII text

    The title caser walks the text with one flag, [isMidWord].  A cased
    letter met outside a word is upper-cased and opens a word; a cased letter
    inside a word is lower-cased.  Any other byte is copied; it closes the
    word when it is a word break.  Letters, digits and ['_'] are word
    characters; ['''], ['.'] and [':'] are mid-word punctuation, which keeps
    a word open unless two of them follow each other; every other ASCII byte
    is a break. *)

Module cases.

Definition isCased (c : ascii) : bool := strings.isUpper c || strings.isLower c.

Definition isDigit (c : ascii) : bool :=
  (48 <=? nat_of_ascii c) && (nat_of_ascii c <=? 57).

Definition isMid (c : ascii) : bool :=
  (nat_of_ascii c =? 39) || (nat_of_ascii c =? 46) || (nat_of_ascii c =? 58).

Definition isBreak (c : ascii) : bool :=
  negb (isCased c || isDigit c || Ascii.eqb c underscore || isMid c).

Fixpoint titleFrom (isMidWord wasMid : bool) (s : string) : string :=
  match s with
  | EmptyString => EmptyString
  | String c s' =>
      let isMidWord := if wasMid && isMid c then false else isMidWord in
      if isCased c then
        String (if isMidWord then strings.toLowerByte c else strings.toUpperByte c)
               (titleFrom true false s')
      else
        String c (titleFrom (if isBreak c then false else isMidWord) (isMid c) s')
  end.

Definition Title (s : string) : string := titleFrom false false s.

End cases.

(** ** string.go *)

(** [toCamelCase] converts a string to camel case. *)
Definition toCamelCase (s : string) : string :=
  let parts := strings.Split s underscore in
  let c := cases.Title in
  let parts := map (fun part => c (strings.ToLower part)) parts in
  strings.Join parts EmptyString.

(** ** Errors

    [errorString] is what [errors.New] builds; [PathError] is an error of
    package [os] with the errno of the failed system call; [withMessage] is
    what [Wrap] and [Wrapf] of github.com/pkg/errors build around a cause. *)

Inductive Errno : Type := EEXIST | ENOTEMPTY | ENOENT | EACCES | ENOSPC.

Inductive error : Type :=
| errorString (s : string)
| PathError (Op Path : string) (Err : Errno)
| withMessage (cause : error) (msg : string).

Module errors.
Definition New (text : string) : error := errorString text.
Definition Wrap (err : error) (message : string) : error := withMessage err message.
End errors.

Definition strerror (e : Errno) : string :=
  match e with
  | EEXIST => "file exists"
  | ENOTEMPTY => "directory not empty"
  | ENOENT => "no such file or directory"
  | EACCES => "permission denied"
  | ENOSPC => "no space left on device"
  end.

(** The [Error()] method. *)
Fixpoint Error (e : error) : string :=
  match e with
  | errorString s => s
  | PathError op path errno => op +:+ " " +:+ path +:+ ": " +:+ strerror errno
  | withMessage cause msg => msg +:+ ": " +:+ Error cause
  end.

Module os.
(** [os.IsExist(err)]: looks through a [PathError] only. *)
Definition IsExist (err : error) : bool :=
  match err with
  | PathError _ _ EEXIST | PathError _ _ ENOTEMPTY => true
  | _ => false
  end.
End os.

(** ** linereader.go

    A [lineReader] yields a finite sequence of lines and then stops, either
    at the end of the input or on a read fault.  [lines] are the lines that
    [Scan] will still deliver (each [Scan() = true] makes the next one the
    value of [Text()]), [err] is what [Err()] reports once [Scan] has
    returned [false]. *)

Record lineReader : Type := mkLineReader {
  lines : list string;
  err : option error
}.

(** ** cfg.go: the struct generated from an env file *)

(** The [fmt.Sprintf] call of the scan loop, with its three [%s] arguments. *)
Definition sprintfField (goFieldName typ key : string) : string :=
  tab +:+ goFieldName +:+ " " +:+ typ +:+ " `envconfig:" +:+ dq +:+ key +:+ dq
      +:+ " required:" +:+ dq +:+ "true" +:+ dq
      +:+ "` // TODO: set the correct data type." +:+ nl.

(** The text written before the scan loop. *)
Definition structHeader : string :=
  ("// Config holds all configuration needed by this app." +:+ nl)
  +:+ ("type Config struct {" +:+ nl)
  +:+ ("// TODO: see https://github.com/kelseyhightower/envconfig for all available options"
       +:+ nl +:+ " // for struct tags." +:+ nl).

(** One turn of the loop [for lineReader.Scan() { ... }] on the builder [sb]. *)
Definition scanStep (sb : string) (line : string) : string :=
  let parts := strings.SplitN line equals 2 in
  if negb (length parts =? 2) then sb (* continue: skip invalid lines *)
  else
    let key := nth 0 parts EmptyString in
    let goFieldName := toCamelCase key in
    sb +:+ sprintfField goFieldName "interface{}" key.

Fixpoint scanLoop (pending : list string) (sb : string) : string :=
  match pending with
  | [] => sb
  | line :: pending' => scanLoop pending' (scanStep sb line)
  end.

(** [generateStructFromEnvFile] parses the provided .env file and generates
    the [Config] struct with the correspondent properties. *)
Definition generateStructFromEnvFile (lineReader : lineReader) : string * option error :=
  let sb := EmptyString in
  let sb := sb +:+ structHeader in
  let sb := scanLoop (lines lineReader) sb in
  let sb := sb +:+ "}" +:+ nl in
  match err lineReader with
  | Some e => (EmptyString, Some (errors.Wrap e "scanning"))
  | None => (sb, None)
  end.

(** The fields of the generated struct, as the data model names them: the
    identifier and the environment key that the loop hands to [Sprintf]. *)
Record FieldSpec : Type := mkFieldSpec {
  goFieldName : string;
  key : string
}.

Definition fieldOfLine (line : string) : option FieldSpec :=
  match strings.Cut line equals with
  | Some (k, _) => Some (mkFieldSpec (toCamelCase k) k)
  | None => None
  end.

Definition emittedFields (ls : list string) : list FieldSpec :=
  omap fieldOfLine ls.

Definition fieldDecl (f : FieldSpec) : string :=
  sprintfField (goFieldName f) "interface{}" (key f).

(** ** Template constants *)

Definition configReaderPkgPlaceHolder : string := "ConfigReaderPkgName".
Definition configStructTemplateName : string := "ConfigStruct".

(** [defaultConfigStructTemplate]. *)
Definition defaultConfigStructTemplate : string :=
  "// Config holds all configuration needed by this app." +:+ nl
  +:+ "type Config struct {" +:+ nl
  +:+ tab +:+ "SampleEnvVar string "
  +:+ "`envconfig:" +:+ dq +:+ "SAMPLE_ENV_VAR" +:+ dq +:+ " required:" +:+ dq +:+ "true" +:+ dq +:+ "`"
  +:+ nl +:+ "}".

Definition configReaderUnitTestFileTemplateName : string := "configReaderUnitTestFile".
Definition configReaderMainFileTemplateName : string := "configReaderMainFile".

(** [configReaderMainFileTemplatePlaceHolder]. *)
Definition configReaderMainFileTemplatePlaceHolder : string :=
  "package {{ .ConfigReaderPkgName }}

import (
	" +:+ dq +:+ "github.com/joho/godotenv" +:+ dq +:+ "
	" +:+ dq +:+ "github.com/kelseyhightower/envconfig" +:+ dq +:+ "
	" +:+ dq +:+ "github.com/pkg/errors" +:+ dq +:+ "
)

{{ .ConfigStruct }}

// For ease of unit testing.
var (
	godotenvLoad     = godotenv.Load
	envconfigProcess = envconfig.Process
)

// Read reads configuration from environment variables.
// It assumes that an '.env' file is present at current path.
func Read() (" +:+ "*Config, error) {
	if err := godotenvLoad(); err != nil {
		return nil, errors.Wrap(err, " +:+ dq +:+ "loading env vars from .env file" +:+ dq +:+ ")
	}
	config := new(Config)
	if err := envconfigProcess(" +:+ dq +:+ dq +:+ ", config); err != nil {
		return nil, errors.Wrap(err, " +:+ dq +:+ "processing env vars" +:+ dq +:+ ")
	}
	return config, nil
}

// ReadFromEnvFile reads configuration from the specified environment file.
func ReadFromEnvFile(envFilePath string) (" +:+ "*Config, error) {
	if err := godotenvLoad(envFilePath); err != nil {
		return nil, errors.Wrapf(err, " +:+ dq +:+ "loading env vars from %s" +:+ dq +:+ ", envFilePath)
	}
	config := new(Config)
	if err := envconfigProcess(" +:+ dq +:+ dq +:+ ", config); err != nil {
		return nil, errors.Wrap(err, " +:+ dq +:+ "processing env vars" +:+ dq +:+ ")
	}
	return config, nil
}
".

(** [configReaderUnitTestFileTemplate]. *)
Definition configReaderUnitTestFileTemplate : string :=
  "package {{ .ConfigReaderPkgName }}

import (
	" +:+ dq +:+ "errors" +:+ dq +:+ "
	" +:+ dq +:+ "testing" +:+ dq +:+ "

	" +:+ dq +:+ "github.com/stretchr/testify/require" +:+ dq +:+ "
)

func TestRead(t *testing.T) {
	testCases := []struct {
		name                   string
		mockedGodotenvLoad     func(filenames ...string) (err error)
		mockedEnvconfigProcess func(prefix string, spec interface{}) error
		expectedError          error
	}{
		{
			name: " +:+ dq +:+ "happy path" +:+ dq +:+ ",
			mockedGodotenvLoad: func(filenames ...string) (err error) {
				return nil
			},
			mockedEnvconfigProcess: func(prefix string, spec interface{}) error {
				return nil
			},
		},
		{
			name: " +:+ dq +:+ "error loading env vars" +:+ dq +:+ ",
			mockedGodotenvLoad: func(filenames ...string) (err error) {
				return errors.New(" +:+ dq +:+ "random error" +:+ dq +:+ ")
			},
			expectedError: errors.New(" +:+ dq +:+ "loading env vars from .env file: random error" +:+ dq +:+ "),
		},
		{
			name: " +:+ dq +:+ "error processing env vars" +:+ dq +:+ ",
			mockedGodotenvLoad: func(filenames ...string) (err error) {
				return nil
			},
			mockedEnvconfigProcess: func(prefix string, spec interface{}) error {
				return errors.New(" +:+ dq +:+ "random error" +:+ dq +:+ ")
			},
			expectedError: errors.New(" +:+ dq +:+ "processing env vars: random error" +:+ dq +:+ "),
		},
	}
	for _, tc := range testCases {
		t.Run(tc.name, func(t *testing.T) {
			godotenvLoad = tc.mockedGodotenvLoad
			envconfigProcess = tc.mockedEnvconfigProcess
			config, err := Read()
			if err != nil {
				if tc.expectedError == nil {
					t.Fatalf(" +:+ dq +:+ "expected no error, got %v" +:+ dq +:+ ", err)
				}
				require.Nil(t, config)
				require.Equal(t, tc.expectedError.Error(), err.Error())
			} else {
				if tc.expectedError != nil {
					t.Fatalf(" +:+ dq +:+ "expected error, got nil" +:+ dq +:+ ")
				}
				require.NotNil(t, config)
			}
		})
	}
}

func TestReadFromEnvFile(t *testing.T) {
	testCases := []struct {
		name                   string
		mockedGodotenvLoad     func(filenames ...string) (err error)
		mockedEnvconfigProcess func(prefix string, spec interface{}) error
		expectedError          error
	}{
		{
			name: " +:+ dq +:+ "happy path" +:+ dq +:+ ",
			mockedGodotenvLoad: func(filenames ...string) (err error) {
				return nil
			},
			mockedEnvconfigProcess: func(prefix string, spec interface{}) error {
				return nil
			},
		},
		{
			name: " +:+ dq +:+ "error loading env vars" +:+ dq +:+ ",
			mockedGodotenvLoad: func(filenames ...string) (err error) {
				return errors.New(" +:+ dq +:+ "random error" +:+ dq +:+ ")
			},
			expectedError: errors.New(" +:+ dq +:+ "loading env vars from path/to/.env: random error" +:+ dq +:+ "),
		},
		{
			name: " +:+ dq +:+ "error processing env vars" +:+ dq +:+ ",
			mockedGodotenvLoad: func(filenames ...string) (err error) {
				return nil
			},
			mockedEnvconfigProcess: func(prefix string, spec interface{}) error {
				return errors.New(" +:+ dq +:+ "random error" +:+ dq +:+ ")
			},
			expectedError: errors.New(" +:+ dq +:+ "processing env vars: random error" +:+ dq +:+ "),
		},
	}
	for _, tc := range testCases {
		t.Run(tc.name, func(t *testing.T) {
			godotenvLoad = tc.mockedGodotenvLoad
			envconfigProcess = tc.mockedEnvconfigProcess
			config, err := ReadFromEnvFile(" +:+ dq +:+ "path/to/.env" +:+ dq +:+ ")
			if err != nil {
				if tc.expectedError == nil {
					t.Fatalf(" +:+ dq +:+ "expected no error, got %v" +:+ dq +:+ ", err)
				}
				require.Nil(t, config)
				require.Equal(t, tc.expectedError.Error(), err.Error())
			} else {
				if tc.expectedError != nil {
					t.Fatalf(" +:+ dq +:+ "expected error, got nil" +:+ dq +:+ ")
				}
				require.NotNil(t, config)
			}
		})
	}
}
".

Definition envFileTemplateName : string := "envFile".
Definition envFileTemplate : string := "SAMPLE_ENV_VAR=some value".

(** ** cfg.go: constants *)

Definition configReadFileName : string := "config.go".
Definition configReaderUnitTestFileName : string := "config_test.go".
Definition envFileName : string := ".env".

(** ** Calls that leave the package

    Every call through one of the substitution points (file system, template
    processor, formatter, line reader) is recorded, in order, with the error
    it returned. *)

Definition bytes : Type := string.

Inductive Event : Type :=
| EvMkdir (dirName : string) (res : option error)
| EvOpen (name : string) (res : option error)
| EvCreate (name : string) (res : option error)
| EvReadFile (name : string) (res : option error)
| EvWriteFile (name : string) (data : bytes) (res : option error)
| EvClose (res : option error)
| EvParse (name : string) (res : option error)
| EvExecute (res : option error)
| EvSource (res : option error)
| EvLineReader.

Definition errOf {A : Type} (r : error + A) : option error :=
  match r with
  | inl e => Some e
  | inr _ => None
  end.

(** A file was created on disk by a call of the trace. *)
Definition createsFile (ev : Event) : bool :=
  match ev with
  | EvCreate _ None | EvWriteFile _ _ None => true
  | _ => false
  end.

Section Generator.

(** The state of everything behind the substitution points. *)
Context {W : Type}.

(** *** fs.go *)

(** [File] defines the interface for file operations. *)
Record File : Type := {
  WriteString : string -> W -> (Z * option error) * W;
  Name : W -> string * W;
  Read : nat -> W -> (bytes * Z * option error) * W;
  Write : bytes -> W -> (Z * option error) * W;
  Close : W -> option error * W
}.

(** [fileSystem] abstracts the file system operations. *)
Record fileSystem : Type := {
  Open : string -> W -> (error + File) * W;
  Create : string -> W -> (error + File) * W;
  ReadFile : string -> W -> (error + bytes) * W;
  WriteFile : string -> bytes -> N -> W -> option error * W;
  IsNotExist : error -> bool;
  Mkdir : string -> W -> option error * W
}.

(** *** template.go *)

Record templateExecutor : Type := {
  Execute : File -> gmap string string -> W -> option error * W
}.

Record templateProcessor : Type := {
  Parse : string -> string -> W -> (error + templateExecutor) * W
}.

(** *** formatter.go *)

Record formatter : Type := {
  Source : bytes -> W -> (error + bytes) * W
}.

(** *** The package variables set up "for ease of unit testing" *)

Variable fsProvider : fileSystem.
Variable templateProcessorProvider : templateProcessor.
Variable formatterProvider : formatter.
(** [lr(r)] and the scan of the reader it returns: the lines the scan
    delivers and the fault it ends with. *)
Variable lr : File -> W -> lineReader * W.

(** *** State passing

    A computation takes the outside state and returns its result, the new
    state and the calls it made. *)

Definition M (A : Type) : Type := W -> A * W * list Event.

Definition ret {A : Type} (a : A) : M A := fun w => (a, w, []).

Definition bind {A B : Type} (m : M A) (k : A -> M B) : M B :=
  fun w =>
    let '(a, w1, t1) := m w in
    let '(b, w2, t2) := k a w1 in
    (b, w2, t1 ++ t2).

Definition call {A : Type} (op : W -> A * W) (ev : A -> Event) : M A :=
  fun w => let '(a, w') := op w in (a, w', [ev a]).

Notation "'let*' x ':=' c1 'in' c2" := (bind c1 (fun x => c2))
  (at level 10, x name, c1 at level 100, c2 at level 200, only parsing).
Notation "'let*' ' pat ':=' c1 'in' c2" := (bind c1 (fun x => match x with pat => c2 end))
  (at level 10, pat pattern, c1 at level 100, c2 at level 200, only parsing).

(** [defer d] in a function whose remaining body is [body]. *)
Definition defer {A B : Type} (d : M B) (body : M A) : M A :=
  let* r := body in let* _ := d in ret r.

(** *** formatter.go *)

(** [formatGoFile] formats the Go source code in the specified file. *)
Definition formatGoFile (filePath : string) : M (option error) :=
  let* r := call (ReadFile fsProvider filePath) (fun r => EvReadFile filePath (errOf r)) in
  match r with
  | inl err => ret (Some (errors.Wrap err ("reading go file " +:+ filePath)))
  | inr source =>
      let* r := call (Source formatterProvider source) (fun r => EvSource (errOf r)) in
      match r with
      | inl err => ret (Some (errors.Wrap err ("formating go file " +:+ filePath)))
      | inr formattedSrc =>
          let* err := call (WriteFile fsProvider filePath formattedSrc 420%N)
                      (EvWriteFile filePath formattedSrc) in
          match err with
          | Some err => ret (Some (errors.Wrap err ("writing go file " +:+ filePath)))
          | None => ret None
          end
      end
  end.

(** *** cfg.go *)

Record generator : Type := { packageName : string }.

Definition NewGenerator (packageName : string) : generator :=
  {| packageName := packageName |}.

(** [writeFileFromTemplate] parses and then executes the given template
    with the given template values. *)
Definition writeFileFromTemplate (templateName templateText : string)
    (templateValues : gmap string string) (file : File) : M (option error) :=
  let* r := call (Parse templateProcessorProvider templateName templateText)
            (fun r => EvParse templateName (errOf r)) in
  match r with
  | inl err => ret (Some (errors.Wrap err ("parsing template " +:+ templateName)))
  | inr tmplExecutor =>
      let* err := call (Execute tmplExecutor file templateValues) EvExecute in
      match err with
      | Some err => ret (Some (errors.Wrap err ("executing template " +:+ templateName)))
      | None => ret None
      end
  end.

(** [generateConfigStructFromEnvFile] generates the [Config] struct from
    variables defined in the provided .env file. *)
Definition generateConfigStructFromEnvFile (envFilePath : string) : M (string * option error) :=
  let* r := call (Open fsProvider envFilePath) (fun r => EvOpen envFilePath (errOf r)) in
  match r with
  | inl err => ret (EmptyString, Some (errors.Wrap err ("opening env file " +:+ envFilePath)))
  | inr envFile =>
      defer (call (Close envFile) EvClose) (
        let* lineReader := call (lr envFile) (fun _ => EvLineReader) in
        let '(structFromEnvFile, err) := generateStructFromEnvFile lineReader in
        match err with
        | Some err =>
            ret (EmptyString,
                 Some (errors.Wrap err ("generating struct from env file " +:+ envFilePath)))
        | None => ret (structFromEnvFile, None)
        end)
  end.

(** [generateConfigReaderMainFile] generates config reader main file. *)
Definition generateConfigReaderMainFile (g : generator) (envFilePath : string)
    : M (string * option error) :=
  let configReaderFilePath := packageName g +:+ "/" +:+ configReadFileName in
  let* r := call (Create fsProvider configReaderFilePath)
            (fun r => EvCreate configReaderFilePath (errOf r)) in
  match r with
  | inl err =>
      ret (EmptyString, Some (errors.Wrap err ("creating file " +:+ configReaderFilePath)))
  | inr configReaderFile =>
      defer (call (Close configReaderFile) EvClose) (
        let templateValues : gmap string string :=
          <[configStructTemplateName := defaultConfigStructTemplate]>
            {[ configReaderPkgPlaceHolder := packageName g ]} in
        let rest (templateValues : gmap string string) : M (string * option error) :=
          let* err := writeFileFromTemplate configReaderMainFileTemplateName
                   configReaderMainFileTemplatePlaceHolder templateValues configReaderFile in
          match err with
          | Some err => ret (EmptyString, Some err)
          | None =>
              let* err := formatGoFile configReaderFilePath in
              match err with
              | Some err => ret (EmptyString, Some err)
              | None => ret (configReaderFilePath, None)
              end
          end in
        if negb (String.eqb envFilePath EmptyString) then
          let* '(structFromEnvFile, err) := generateConfigStructFromEnvFile envFilePath in
          match err with
          | Some err => ret (EmptyString, Some err)
          | None => rest (<[configStructTemplateName := structFromEnvFile]> templateValues)
          end
        else rest templateValues)
  end.

(** [generateConfigReaderUnitTestFile] generates unit test file. *)
Definition generateConfigReaderUnitTestFile (g : generator) : M (string * option error) :=
  let configReaderUnitTestFilePath := packageName g +:+ "/" +:+ configReaderUnitTestFileName in
  let* r := call (Create fsProvider configReaderUnitTestFilePath)
            (fun r => EvCreate configReaderUnitTestFilePath (errOf r)) in
  match r with
  | inl err =>
      ret (EmptyString,
           Some (errors.Wrap err ("creating file " +:+ configReaderUnitTestFilePath)))
  | inr configReaderUnitTestFile =>
      defer (call (Close configReaderUnitTestFile) EvClose) (
        let* err := writeFileFromTemplate configReaderUnitTestFileTemplateName
                 configReaderUnitTestFileTemplate
                 {[ configReaderPkgPlaceHolder := packageName g ]}
                 configReaderUnitTestFile in
        match err with
        | Some err => ret (EmptyString, Some err)
        | None => ret (configReaderUnitTestFilePath, None)
        end)
  end.

(** [generateEnvFile] generates a sample .env file. *)
Definition generateEnvFile (g : generator) : M (option error) :=
  let* r := call (Create fsProvider envFileName) (fun r => EvCreate envFileName (errOf r)) in
  match r with
  | inl err => ret (Some (errors.Wrap err ("creating file " +:+ envFileName)))
  | inr envFile =>
      defer (call (Close envFile) EvClose) (
        (* the template values are nil: a map without entries *)
        let* err := writeFileFromTemplate envFileTemplateName envFileTemplate ∅ envFile in
        match err with
        | Some err => ret (Some err)
        | None => ret None
        end)
  end.

(** The guard [err != nil && !os.IsExist(err)] on the result of [Mkdir]. *)
Definition mkdirFailed (err : option error) : option error :=
  match err with
  | Some e => if negb (os.IsExist e) then Some e else None
  | None => None
  end.

(** [generateConfigReaderFilesFromEnvFile] generates config reader files
    from .env file. *)
Definition generateConfigReaderFilesFromEnvFile (g : generator) (envFilePath : string)
    : M (list string * option error) :=
  let generatedFiles : list string := [] in
  let* err := call (Mkdir fsProvider (packageName g)) (EvMkdir (packageName g)) in
  match mkdirFailed err with
  | Some err => ret ([], Some (errors.Wrap err ("creating dir " +:+ packageName g)))
  | None =>
      let* '(mainFilePath, err) := generateConfigReaderMainFile g envFilePath in
      match err with
      | Some err => ret ([], Some err)
      | None =>
          let generatedFiles := generatedFiles ++ [mainFilePath] in
          let* '(unitTestFilePath, err) := generateConfigReaderUnitTestFile g in
          match err with
          | Some err => ret ([], Some err)
          | None =>
              let generatedFiles := generatedFiles ++ [unitTestFilePath] in
              ret (generatedFiles, None)
          end
      end
  end.

(** [generateConfigReaderFiles] generates config reader files. *)
Definition generateConfigReaderFiles (g : generator) : M (list string * option error) :=
  let generatedFiles : list string := [] in
  let* err := call (Mkdir fsProvider (packageName g)) (EvMkdir (packageName g)) in
  match mkdirFailed err with
  | Some err => ret ([], Some (errors.Wrap err ("creating dir " +:+ packageName g)))
  | None =>
      let* '(mainFilePath, err) := generateConfigReaderMainFile g EmptyString in
      match err with
      | Some err => ret ([], Some err)
      | None =>
          let generatedFiles := generatedFiles ++ [mainFilePath] in
          let* '(unitTestFilePath, err) := generateConfigReaderUnitTestFile g in
          match err with
          | Some err => ret ([], Some err)
          | None =>
              let generatedFiles := generatedFiles ++ [unitTestFilePath] in
              let* err := generateEnvFile g in
              match err with
              | Some err => ret ([], Some err)
              | None =>
                  let generatedFiles := generatedFiles ++ [envFileName] in
                  ret (generatedFiles, None)
              end
          end
      end
  end.

Definition GenerateConfigPackage (g : generator) : M (list string * option error) :=
  let* '(generatedFiles, err) := generateConfigReaderFiles g in
  match err with
  | Some err => ret ([], Some err)
  | None => ret (generatedFiles, None)
  end.

Definition GenerateConfigPackageFromEnvFile (g : generator) (envFilePath : string)
    : M (list string * option error) :=
  let* '(generatedFiles, err) := generateConfigReaderFilesFromEnvFile g envFilePath in
  match err with
  | Some err => ret ([], Some err)
  | None => ret (generatedFiles, None)
  end.

End Generator.

Arguments File : clear implicits.
Arguments fileSystem : clear implicits.
Arguments templateExecutor : clear implicits.
Arguments templateProcessor : clear implicits.
Arguments formatter : clear implicits.

(** ** The mocks of the package's tests

    The mocks keep no state besides their configuration, so the state behind
    them is [unit].  A pointer field that a test leaves nil is never
    dereferenced on the path that test takes; it holds the zero value here. *)

Module mocks.

Record mockFile : Type := {
  name : string;
  writeErr : option error;
  writeStringErr : option error;
  readErr : option error;
  closeErr : option error
}.

(** [new(mockFile)]. *)
Definition newMockFile : mockFile :=
  {| name := EmptyString; writeErr := None; writeStringErr := None;
     readErr := None; closeErr := None |}.

Definition asFile (m : mockFile) : File unit :=
  {| WriteString := fun _ w => ((5%Z, writeStringErr m), w);
     Name := fun w => (name m, w);
     Read := fun _ w => ((EmptyString, 5%Z, readErr m), w);
     Write := fun _ w => ((5%Z, writeErr m), w);
     Close := fun w => (closeErr m, w) |}.

Record mockFileSystem : Type := {
  file : bytes;
  isNotExistOutput : bool;
  openedFile : mockFile;
  createdFile : mockFile;
  mkDirErr : option error;
  openErr : option error;
  createErr : option error;
  createUnitTestFileErr : option error;
  createEnvFileErr : option error;
  readFileErr : option error;
  writeFileErr : option error
}.

(** A Go result pair [(x, err)] read the way its callers read it. *)
Definition result {A : Type} (x : A) (err : option error) : error + A :=
  match err with
  | Some e => inl e
  | None => inr x
  end.

Definition fs (m : mockFileSystem) : fileSystem unit :=
  {| Mkdir := fun _ w => (mkDirErr m, w);
     Open := fun _ w => (result (asFile (openedFile m)) (openErr m), w);
     Create := fun name w =>
       if strings.Contains name configReadFileName then
         (result (asFile (createdFile m)) (createErr m), w)
       else if strings.Contains name configReaderUnitTestFileName then
         (result (asFile (createdFile m)) (createUnitTestFileErr m), w)
       else if strings.Contains name envFileName then
         (result (asFile (createdFile m)) (createEnvFileErr m), w)
       else (inr (asFile (createdFile m)), w);
     IsNotExist := fun _ => isNotExistOutput m;
     ReadFile := fun _ w => (result (file m) (readFileErr m), w);
     WriteFile := fun _ _ _ w => (writeFileErr m, w) |}.

Record mockFormatter : Type := {
  formatted : bytes;
  sourceErr : option error
}.

Definition fmt (m : mockFormatter) : formatter unit :=
  {| Source := fun _ w => (result (formatted m) (sourceErr m), w) |}.

Record mockTemplateExecutor : Type := { executeErr : option error }.

Definition executor (m : mockTemplateExecutor) : templateExecutor unit :=
  {| Execute := fun _ _ w => (executeErr m, w) |}.

Record mockTemplateProcessor : Type := {
  te : mockTemplateExecutor;
  parseErr : option error;
  envFileTemplateParseErr : option error;
  configReaderUnitTestFileParseErr : option error
}.

Definition tp (m : mockTemplateProcessor) : templateProcessor unit :=
  {| Parse := fun name _ w =>
       if strings.Contains name configReaderMainFileTemplateName then
         (result (executor (te m)) (parseErr m), w)
       else if strings.Contains name configReaderUnitTestFileTemplateName then
         (result (executor (te m)) (configReaderUnitTestFileParseErr m), w)
       else if strings.Contains name envFileTemplateName then
         (result (executor (te m)) (envFileTemplateParseErr m), w)
       else (result (executor (te m)) (parseErr m), w) |}.

Record mockLineReader : Type := {
  mlines : list string;
  index : nat;
  scanErr : option error
}.

(** [lr = func(_ io.Reader) lineReader { return mlr }]: [Scan] is true
    while [index < len(lines)], [Text] returns [lines[index]] and moves
    [index], [Err] returns the configured error. *)
Definition lr (m : mockLineReader) : File unit -> unit -> lineReader * unit :=
  fun _ w => (mkLineReader (drop (index m) (mlines m)) (scanErr m), w).

(** The zero values [new(mockFileSystem)], ... the tests start from. *)
Definition mfs0 : mockFileSystem :=
  {| file := EmptyString; isNotExistOutput := false;
     openedFile := newMockFile; createdFile := newMockFile;
     mkDirErr := None; openErr := None; createErr := None;
     createUnitTestFileErr := None; createEnvFileErr := None;
     readFileErr := None; writeFileErr := None |}.
Definition mtp0 : mockTemplateProcessor :=
  {| te := {| executeErr := None |}; parseErr := None;
     envFileTemplateParseErr := None; configReaderUnitTestFileParseErr := None |}.
Definition mfr0 : mockFormatter := {| formatted := EmptyString; sourceErr := None |}.
Definition mlr0 : mockLineReader := {| mlines := []; index := 0; scanErr := None |}.

(** The assignments the test closures make. *)
Definition setMkDirErr (e : error) (m : mockFileSystem) : mockFileSystem :=
  {| file := file m; isNotExistOutput := isNotExistOutput m; openedFile := openedFile m;
     createdFile := createdFile m; mkDirErr := Some e; openErr := openErr m;
     createErr := createErr m; createUnitTestFileErr := createUnitTestFileErr m;
     createEnvFileErr := createEnvFileErr m; readFileErr := readFileErr m;
     writeFileErr := writeFileErr m |}.
Definition setOpenErr (e : error) (m : mockFileSystem) : mockFileSystem :=
  {| file := file m; isNotExistOutput := isNotExistOutput m; openedFile := openedFile m;
     createdFile := createdFile m; mkDirErr := mkDirErr m; openErr := Some e;
     createErr := createErr m; createUnitTestFileErr := createUnitTestFileErr m;
     createEnvFileErr := createEnvFileErr m; readFileErr := readFileErr m;
     writeFileErr := writeFileErr m |}.
Definition setCreateErr (e : error) (m : mockFileSystem) : mockFileSystem :=
  {| file := file m; isNotExistOutput := isNotExistOutput m; openedFile := openedFile m;
     createdFile := createdFile m; mkDirErr := mkDirErr m; openErr := openErr m;
     createErr := Some e; createUnitTestFileErr := createUnitTestFileErr m;
     createEnvFileErr := createEnvFileErr m; readFileErr := readFileErr m;
     writeFileErr := writeFileErr m |}.
Definition setCreateUnitTestFileErr (e : error) (m : mockFileSystem) : mockFileSystem :=
  {| file := file m; isNotExistOutput := isNotExistOutput m; openedFile := openedFile m;
     createdFile := createdFile m; mkDirErr := mkDirErr m; openErr := openErr m;
     createErr := createErr m; createUnitTestFileErr := Some e;
     createEnvFileErr := createEnvFileErr m; readFileErr := readFileErr m;
     writeFileErr := writeFileErr m |}.
Definition setCreateEnvFileErr (e : error) (m : mockFileSystem) : mockFileSystem :=
  {| file := file m; isNotExistOutput := isNotExistOutput m; openedFile := openedFile m;
     createdFile := createdFile m; mkDirErr := mkDirErr m; openErr := openErr m;
     createErr := createErr m; createUnitTestFileErr := createUnitTestFileErr m;
     createEnvFileErr := Some e; readFileErr := readFileErr m;
     writeFileErr := writeFileErr m |}.
Definition setReadFileErr (e : error) (m : mockFileSystem) : mockFileSystem :=
  {| file := file m; isNotExistOutput := isNotExistOutput m; openedFile := openedFile m;
     createdFile := createdFile m; mkDirErr := mkDirErr m; openErr := openErr m;
     createErr := createErr m; createUnitTestFileErr := createUnitTestFileErr m;
     createEnvFileErr := createEnvFileErr m; readFileErr := Some e;
     writeFileErr := writeFileErr m |}.
Definition setWriteFileErr (e : error) (m : mockFileSystem) : mockFileSystem :=
  {| file := file m; isNotExistOutput := isNotExistOutput m; openedFile := openedFile m;
     createdFile := createdFile m; mkDirErr := mkDirErr m; openErr := openErr m;
     createErr := createErr m; createUnitTestFileErr := createUnitTestFileErr m;
     createEnvFileErr := createEnvFileErr m; readFileErr := readFileErr m;
     writeFileErr := Some e |}.

Definition setParseErr (e : error) (m : mockTemplateProcessor) : mockTemplateProcessor :=
  {| te := te m; parseErr := Some e;
     envFileTemplateParseErr := envFileTemplateParseErr m;
     configReaderUnitTestFileParseErr := configReaderUnitTestFileParseErr m |}.
Definition setEnvFileTemplateParseErr (e : error) (m : mockTemplateProcessor)
    : mockTemplateProcessor :=
  {| te := te m; parseErr := parseErr m; envFileTemplateParseErr := Some e;
     configReaderUnitTestFileParseErr := configReaderUnitTestFileParseErr m |}.
Definition setConfigReaderUnitTestFileParseErr (e : error) (m : mockTemplateProcessor)
    : mockTemplateProcessor :=
  {| te := te m; parseErr := parseErr m;
     envFileTemplateParseErr := envFileTemplateParseErr m;
     configReaderUnitTestFileParseErr := Some e |}.
Definition setExecuteErr (e : error) (m : mockTemplateProcessor) : mockTemplateProcessor :=
  {| te := {| executeErr := Some e |}; parseErr := parseErr m;
     envFileTemplateParseErr := envFileTemplateParseErr m;
     configReaderUnitTestFileParseErr := configReaderUnitTestFileParseErr m |}.

Definition setSourceErr (e : error) (m : mockFormatter) : mockFormatter :=
  {| formatted := formatted m; sourceErr := Some e |}.

(** [mlr.lines = []string{"invalid", "var=value"}]. *)
Definition mlrTwoLines : mockLineReader :=
  {| mlines := ["invalid"; "var=value"]; index := 0; scanErr := None |}.
Definition setScanErr (e : error) (m : mockLineReader) : mockLineReader :=
  {| mlines := mlines m; index := index m; scanErr := Some e |}.

(** What a test looks at: the paths, and the message of the error. *)
Definition observed {A : Type} (r : (A * option error) * list Event) : A * option string :=
  (fst (fst r), option_map Error (snd (fst r))).

(** [formatGoFile(filePath)] under the mocks. *)
Definition runFormatGoFile (m : mockFileSystem) (f : mockFormatter) (filePath : string)
    : option string :=
  option_map Error (fst (fst (formatGoFile (fs m) (fmt f) filePath tt))).

(** [g.GenerateConfigPackage()] under the mocks. *)
Definition runDefault (m : mockFileSystem) (t : mockTemplateProcessor) (f : mockFormatter)
    (packageName : string) : (list string * option error) * list Event :=
  let '(r, _, trace) :=
    GenerateConfigPackage (fs m) (tp t) (fmt f) (lr mlr0) (NewGenerator packageName) tt in
  (r, trace).

(** [g.GenerateConfigPackageFromEnvFile(envFilePath)] under the mocks. *)
Definition runFromEnvFile (m : mockFileSystem) (t : mockTemplateProcessor) (f : mockFormatter)
    (l : mockLineReader) (packageName envFilePath : string)
    : (list string * option error) * list Event :=
  let '(r, _, trace) :=
    GenerateConfigPackageFromEnvFile (fs m) (tp t) (fmt f) (lr l)
      (NewGenerator packageName) envFilePath tt in
  (r, trace).

End mocks.


(** ** Notions of the specification *)

(** The concatenation of a list of texts, in order. *)
Definition appendAll (l : list string) : string := foldr String.append EmptyString l.

(** The Name Formatter in the words of the specification: split on ['_'],
    lower-case each token, capitalize its first letter, concatenate. *)
Definition capitalizeFirst (token : string) : string :=
  match token with
  | EmptyString => EmptyString
  | String c rest => String (strings.toUpperByte c) rest
  end.

Definition toCamelCase_spec (s : string) : string :=
  appendAll (map (fun token => capitalizeFirst (strings.ToLower token))
                 (strings.Split s underscore)).

(** Texts made of ASCII letters, and of ASCII letters and ['_']. *)
Fixpoint lettersOnly (s : string) : bool :=
  match s with
  | EmptyString => true
  | String c s' => cases.isCased c && lettersOnly s'
  end.

Fixpoint lettersAndUnderscores (s : string) : bool :=
  match s with
  | EmptyString => true
  | String c s' => (cases.isCased c || Ascii.eqb c underscore) && lettersAndUnderscores s'
  end.

(** A line is valid when splitting it at the first ['='] gives two parts. *)
Definition validLine (line : string) : bool := 0 <? strings.Count line equals.

(** The text of a line left of its first ['=']. *)
Definition keyOfLine (line : string) : string :=
  match strings.Cut line equals with
  | Some (before, _) => before
  | None => line
  end.

(** A file system that differs from [fs] in one point: [Mkdir] reports
    success, leaving the state as the [Mkdir] of [fs] leaves it. *)
Definition mkdirSucceeds {W : Type} (fs : fileSystem W) : fileSystem W :=
  {| Open := Open fs; Create := Create fs; ReadFile := ReadFile fs;
     WriteFile := WriteFile fs; IsNotExist := IsNotExist fs;
     Mkdir := fun dirName w => (None, snd (Mkdir fs dirName w)) |}.

(** ** cmd/goprojconfig/main.go *)

Record options : Type := {
  ConfigPackageName : string;
  EnvFile : string
}.

Definition run {W : Type} (fsProvider : fileSystem W)
    (templateProcessorProvider : templateProcessor W) (formatterProvider : formatter W)
    (lr : File W -> W -> lineReader * W) (opts : options)
    : W -> (list string * option error) * W * list Event :=
  let generator := NewGenerator (ConfigPackageName opts) in
  if negb (String.eqb (EnvFile opts) EmptyString) then
    GenerateConfigPackageFromEnvFile fsProvider templateProcessorProvider formatterProvider lr
      generator (EnvFile opts)
  else
    GenerateConfigPackage fsProvider templateProcessorProvider formatterProvider lr generator.

(** ** Notions about texts and traces *)

(** The text [s] without the bytes [sep]. *)
Fixpoint removeByte (sep : ascii) (s : string) : string :=
  match s with
  | EmptyString => EmptyString
  | String c s' => if Ascii.eqb c sep then removeByte sep s' else String c (removeByte sep s')
  end.

(** A call whose error makes the package return: any error but the one of
    [Close], which the deferred calls drop, and the "already exists" error of
    [Mkdir], which the guard on [Mkdir] lets pass. *)
Definition failed (ev : Event) : bool :=
  match ev with
  | EvMkdir _ (Some e) => negb (os.IsExist e)
  | EvOpen _ (Some _) | EvCreate _ (Some _) | EvReadFile _ (Some _)
  | EvWriteFile _ _ (Some _) | EvParse _ (Some _) | EvExecute (Some _)
  | EvSource (Some _) => true
  | _ => false
  end.

Definition isClose (ev : Event) : bool :=
  match ev with
  | EvClose _ => true
  | _ => false
  end.

(** A call that hands a file to the package. *)
Definition opensFile (ev : Event) : bool :=
  match ev with
  | EvOpen _ None | EvCreate _ None => true
  | _ => false
  end.

(** After the first failed call of a trace come calls of [Close] only. *)
Fixpoint abortsAtFailure (t : list Event) : bool :=
  match t with
  | [] => true
  | ev :: t' => if failed ev then forallb isClose t' else abortsAtFailure t'
  end.

(** The context that [Wrap] puts before the message of its cause. *)
Definition context (e : error) : option string :=
  match e with
  | withMessage _ msg => Some msg
  | _ => None
  end.

(** The contexts under which the generator for package [g] and environment
    file [envFilePath] wraps the errors it returns. *)
Definition errorContexts (g : generator) (envFilePath : string) : list string :=
  let main := packageName g +:+ "/" +:+ configReadFileName in
  let test := packageName g +:+ "/" +:+ configReaderUnitTestFileName in
  [ "creating dir " +:+ packageName g;
    "creating file " +:+ main;
    "creating file " +:+ test;
    "creating file " +:+ envFileName;
    "opening env file " +:+ envFilePath;
    "generating struct from env file " +:+ envFilePath;
    "parsing template " +:+ configReaderMainFileTemplateName;
    "parsing template " +:+ configReaderUnitTestFileTemplateName;
    "parsing template " +:+ envFileTemplateName;
    "executing template " +:+ configReaderMainFileTemplateName;
    "executing template " +:+ configReaderUnitTestFileTemplateName;
    "executing template " +:+ envFileTemplateName;
    "reading go file " +:+ main;
    "formating go file " +:+ main;
    "writing go file " +:+ main ].

(** The calls a run for package [g] and environment file [envFilePath] may
    make; [sample] tells whether the sample environment file may be created. *)
Definition allowedCall (g : generator) (envFilePath : string) (sample : bool)
    (ev : Event) : Prop :=
  let main := packageName g +:+ "/" +:+ configReadFileName in
  let test := packageName g +:+ "/" +:+ configReaderUnitTestFileName in
  match ev with
  | EvMkdir dirName _ => dirName = packageName g
  | EvCreate name _ => name = main \/ name = test \/ (sample = true /\ name = envFileName)
  | EvOpen name _ => name = envFilePath /\ envFilePath <> EmptyString
  | EvLineReader => envFilePath <> EmptyString
  | EvReadFile name _ => name = main
  | EvWriteFile name _ _ => name = main
  | EvParse name _ =>
      name = configReaderMainFileTemplateName
      \/ name = configReaderUnitTestFileTemplateName
      \/ (sample = true /\ name = envFileTemplateName)
  | EvExecute _ | EvSource _ | EvClose _ => True
  end.

(** * Properties *)

(** ** Bytes *)

Ltac by_cases_on_byte c :=
  destruct c as [[] [] [] [] [] [] [] []]; vm_compute; intuition congruence.

Lemma toLowerByte_underscore c :
  Ascii.eqb (strings.toLowerByte c) underscore = Ascii.eqb c underscore.
Proof. by_cases_on_byte c. Qed.

Lemma cased_not_underscore c :
  cases.isCased c = true ->
  Ascii.eqb c underscore = false
  /\ Ascii.eqb (strings.toLowerByte c) underscore = false
  /\ Ascii.eqb (strings.toUpperByte c) underscore = false.
Proof. by_cases_on_byte c. Qed.

Lemma toLowerByte_cased c :
  cases.isCased c = true ->
  cases.isCased (strings.toLowerByte c) = true
  /\ strings.isLower (strings.toLowerByte c) = true.
Proof. by_cases_on_byte c. Qed.

Lemma toLowerByte_lower c :
  strings.isLower c = true -> strings.toLowerByte c = c /\ cases.isCased c = true.
Proof. by_cases_on_byte c. Qed.

(** ** Package [strings] *)

Lemma string_app_cons x (a b : string) : String x a +:+ b = String x (a +:+ b).
Proof. reflexivity. Qed.

Lemma string_app_empty_l (b : string) : EmptyString +:+ b = b.
Proof. reflexivity. Qed.

Lemma string_app_empty_r (a : string) : a +:+ EmptyString = a.
Proof.
  induction a as [|x a IH]; [reflexivity|].
  now rewrite string_app_cons, IH.
Qed.

Lemma string_app_assoc (a b c : string) : (a +:+ b) +:+ c = a +:+ (b +:+ c).
Proof.
  induction a as [|x a IH]; [reflexivity|].
  now rewrite !string_app_cons, IH.
Qed.

Ltac string_app :=
  rewrite ?string_app_cons, ?string_app_empty_l, ?string_app_empty_r.

Lemma Count_app a b sep :
  strings.Count (a +:+ b) sep = strings.Count a sep + strings.Count b sep.
Proof.
  induction a as [|x a IH]; [reflexivity|].
  rewrite string_app_cons. simpl. rewrite IH. lia.
Qed.

Lemma length_app a b : String.length (a +:+ b) = String.length a + String.length b.
Proof.
  induction a as [|x a IH]; [reflexivity|].
  rewrite string_app_cons. simpl. now rewrite IH.
Qed.

Lemma Cut_None s sep : strings.Cut s sep = None <-> strings.Count s sep = 0.
Proof.
  induction s as [|c s IH]; simpl; [easy|].
  destruct (Ascii.eqb c sep); simpl.
  - split; [discriminate | lia].
  - destruct (strings.Cut s sep) as [[b a]|]; split; intros H;
      try discriminate; try reflexivity; try tauto.
    apply IH in H. discriminate.
Qed.

Lemma Cut_Some s sep before after :
  strings.Cut s sep = Some (before, after) ->
  s = before +:+ String sep after /\ strings.Count before sep = 0.
Proof.
  revert before; induction s as [|c s IH]; simpl; intros before H; [discriminate|].
  destruct (Ascii.eqb c sep) eqn:E.
  - apply Ascii.eqb_eq in E; subst c. inversion H; subst. now split.
  - destruct (strings.Cut s sep) as [[b a]|]; [|discriminate].
    inversion H; subst. destruct (IH b eq_refl) as [-> Hb].
    simpl. rewrite E. now split.
Qed.

Lemma Count_Cut s sep before after :
  strings.Cut s sep = Some (before, after) ->
  strings.Count s sep = S (strings.Count after sep)
  /\ String.length s = String.length before + S (String.length after).
Proof.
  intros H. destruct (Cut_Some _ _ _ _ H) as [-> Hb].
  rewrite Count_app, length_app, Hb. simpl. rewrite Ascii.eqb_refl. lia.
Qed.

Lemma SplitN_2 line sep :
  strings.SplitN line sep 2 =
  match strings.Cut line sep with
  | Some (before, after) => [before; after]
  | None => [line]
  end.
Proof. simpl. now destruct (strings.Cut line sep) as [[b a]|]. Qed.

Lemma SplitN_more s sep n :
  strings.SplitN s sep (S (S n)) =
  match strings.Cut s sep with
  | Some (before, after) => before :: strings.SplitN after sep (S n)
  | None => [s]
  end.
Proof. reflexivity. Qed.

Lemma appendAll_cons x l : appendAll (x :: l) = x +:+ appendAll l.
Proof. reflexivity. Qed.

Lemma Split_parts sep n : forall s,
  strings.Count s sep = n ->
  Forall (fun part => strings.Count part sep = 0) (strings.SplitN s sep (n + 1))
  /\ String.length (appendAll (strings.SplitN s sep (n + 1))) + n = String.length s.
Proof.
  induction n as [|n IH]; intros s Hn.
  - simpl. rewrite string_app_empty_r. split; [now constructor | lia].
  - rewrite Nat.add_1_r, SplitN_more. destruct (strings.Cut s sep) as [[b a]|] eqn:HC.
    + destruct (Cut_Some _ _ _ _ HC) as [_ Hb].
      destruct (Count_Cut _ _ _ _ HC) as [Hc Hl].
      assert (Ha : strings.Count a sep = n) by lia.
      destruct (IH a Ha) as [IH1 IH2]. rewrite Nat.add_1_r in IH1, IH2. split.
      * now constructor.
      * rewrite appendAll_cons, length_app. lia.
    + apply Cut_None in HC. lia.
Qed.

Lemma Count_appendAll sep l :
  Forall (fun part => strings.Count part sep = 0) l -> strings.Count (appendAll l) sep = 0.
Proof.
  induction 1 as [|p l Hp _ IH]; [reflexivity|].
  rewrite appendAll_cons, Count_app. lia.
Qed.

Lemma Join_empty l : strings.Join l EmptyString = appendAll l.
Proof.
  induction l as [|e [|e' l] IH]; [reflexivity| |].
  - symmetry. apply string_app_empty_r.
  - change (strings.Join (e :: e' :: l) EmptyString)
      with (e +:+ EmptyString +:+ strings.Join (e' :: l) EmptyString).
    rewrite IH. reflexivity.
Qed.

(** ** string.go *)

Lemma ToLower_Count s :
  strings.Count (strings.ToLower s) underscore = strings.Count s underscore.
Proof.
  induction s as [|c s IH]; simpl; [reflexivity|].
  now rewrite toLowerByte_underscore, IH.
Qed.

Lemma ToLower_length s : String.length (strings.ToLower s) = String.length s.
Proof. induction s as [|c s IH]; simpl; congruence. Qed.

Lemma titleFrom_Count s : forall isMidWord wasMid,
  strings.Count (cases.titleFrom isMidWord wasMid s) underscore = strings.Count s underscore.
Proof.
  induction s as [|c s IH]; intros m w; simpl; [reflexivity|].
  destruct (cases.isCased c) eqn:E; simpl; rewrite IH; [|reflexivity].
  destruct (cased_not_underscore c E) as (Hc & Hl & Hu).
  destruct (if w && cases.isMid c then false else m); now rewrite ?Hl, ?Hu, Hc.
Qed.

Lemma titleFrom_length s : forall isMidWord wasMid,
  String.length (cases.titleFrom isMidWord wasMid s) = String.length s.
Proof.
  induction s as [|c s IH]; intros m w; simpl; [reflexivity|].
  destruct (cases.isCased c); simpl; now rewrite IH.
Qed.

Lemma toCamelCase_unfold s :
  toCamelCase s =
  appendAll (map (fun part => cases.Title (strings.ToLower part))
                 (strings.Split s underscore)).
Proof. unfold toCamelCase. apply Join_empty. Qed.

Lemma Count_appendAll_map (f : string -> string) sep l :
  (forall part, strings.Count (f part) sep = strings.Count part sep) ->
  Forall (fun part => strings.Count part sep = 0) l ->
  strings.Count (appendAll (map f l)) sep = 0.
Proof.
  intros Hf Hl. apply Count_appendAll.
  induction Hl as [|p l Hp _ IH]; simpl; constructor; [|assumption].
  now rewrite Hf.
Qed.

Lemma length_appendAll_map (f : string -> string) l :
  (forall part, String.length (f part) = String.length part) ->
  String.length (appendAll (map f l)) = String.length (appendAll l).
Proof.
  intros Hf. induction l as [|p l IH]; [reflexivity|].
  cbn [map]. rewrite !appendAll_cons, !length_app, Hf, IH. reflexivity.
Qed.

Lemma toCamelCase_no_underscore s : strings.Count (toCamelCase s) underscore = 0.
Proof.
  rewrite toCamelCase_unfold. apply Count_appendAll_map.
  - intros part. unfold cases.Title. now rewrite titleFrom_Count, ToLower_Count.
  - apply (Split_parts underscore (strings.Count s underscore) s eq_refl).
Qed.

Lemma toCamelCase_length s :
  String.length (toCamelCase s) + strings.Count s underscore = String.length s.
Proof.
  rewrite toCamelCase_unfold, length_appendAll_map.
  - apply (Split_parts underscore (strings.Count s underscore) s eq_refl).
  - intros part. unfold cases.Title. now rewrite titleFrom_length, ToLower_length.
Qed.

Lemma toCamelCase_empty_iff s :
  toCamelCase s = EmptyString <-> strings.Count s underscore = String.length s.
Proof.
  pose proof (toCamelCase_length s) as H. split; intros E.
  - rewrite E in H. simpl in H. lia.
  - destruct (toCamelCase s); [reflexivity | simpl in H; lia].
Qed.

(** Inside a word of lower-case letters the title caser changes nothing. *)
Lemma titleFrom_midword s :
  lettersOnly s = true ->
  cases.titleFrom true false (strings.ToLower s) = strings.ToLower s.
Proof.
  induction s as [|c s IH]; simpl; [reflexivity|].
  intros [Hc Hs]%andb_prop.
  destruct (toLowerByte_cased c Hc) as [-> Hl].
  destruct (toLowerByte_lower _ Hl) as [-> _].
  now rewrite IH.
Qed.

Lemma Title_word token :
  lettersOnly token = true ->
  cases.Title (strings.ToLower token) = capitalizeFirst (strings.ToLower token).
Proof.
  destruct token as [|c s]; simpl; [reflexivity|].
  intros [Hc Hs]%andb_prop. unfold cases.Title. simpl.
  destruct (toLowerByte_cased c Hc) as [-> _].
  now rewrite titleFrom_midword.
Qed.

Lemma Cut_letters s :
  lettersAndUnderscores s = true ->
  match strings.Cut s underscore with
  | Some (before, after) => lettersOnly before = true /\ lettersAndUnderscores after = true
  | None => lettersOnly s = true
  end.
Proof.
  induction s as [|c s IH]; simpl; [reflexivity|].
  intros [Hc Hs]%andb_prop. specialize (IH Hs).
  destruct (Ascii.eqb c underscore) eqn:E; [now split|].
  rewrite orb_false_r in Hc.
  destruct (strings.Cut s underscore) as [[b a]|]; simpl; rewrite Hc; simpl; tauto.
Qed.

Lemma SplitN_letters n : forall s,
  lettersAndUnderscores s = true ->
  strings.Count s underscore = n ->
  Forall (fun part => lettersOnly part = true) (strings.SplitN s underscore (S n)).
Proof.
  induction n as [|n IH]; intros s Hs Hn.
  - pose proof (Cut_letters s Hs) as H.
    apply Cut_None in Hn. rewrite Hn in H. simpl. now constructor.
  - rewrite SplitN_more. pose proof (Cut_letters s Hs) as H.
    destruct (strings.Cut s underscore) as [[b a]|] eqn:HC.
    + destruct H as [Hb Ha]. destruct (Count_Cut _ _ _ _ HC) as [Hc _].
      constructor; [assumption|]. apply IH; [assumption | lia].
    + now constructor.
Qed.

Lemma toCamelCase_words s :
  lettersAndUnderscores s = true -> toCamelCase s = toCamelCase_spec s.
Proof.
  intros Hs. rewrite toCamelCase_unfold. unfold toCamelCase_spec, strings.Split.
  rewrite Nat.add_1_r.
  pose proof (SplitN_letters _ s Hs eq_refl) as H.
  induction H as [|p l Hp _ IH]; [reflexivity|].
  cbn [map]. rewrite !appendAll_cons, IH, Title_word by assumption. reflexivity.
Qed.

(** ** cfg.go: the struct generated from an env file *)

Lemma fieldOfLine_valid line :
  fieldOfLine line =
  if validLine line
  then Some (mkFieldSpec (toCamelCase (keyOfLine line)) (keyOfLine line))
  else None.
Proof.
  unfold fieldOfLine, validLine, keyOfLine.
  destruct (strings.Cut line equals) as [[k v]|] eqn:HC.
  - destruct (Count_Cut _ _ _ _ HC) as [-> _]. reflexivity.
  - apply Cut_None in HC. now rewrite HC.
Qed.

Lemma scanStep_field sb line :
  scanStep sb line =
  match fieldOfLine line with
  | Some f => sb +:+ fieldDecl f
  | None => sb
  end.
Proof.
  unfold scanStep, fieldOfLine. rewrite SplitN_2.
  now destruct (strings.Cut line equals) as [[k v]|].
Qed.

Lemma emittedFields_cons line ls :
  emittedFields (line :: ls) =
  match fieldOfLine line with
  | Some f => f :: emittedFields ls
  | None => emittedFields ls
  end.
Proof. reflexivity. Qed.

Lemma scanLoop_fields ls : forall sb,
  scanLoop ls sb = sb +:+ appendAll (map fieldDecl (emittedFields ls)).
Proof.
  induction ls as [|line ls IH]; intros sb.
  - symmetry. apply string_app_empty_r.
  - cbn [scanLoop]. rewrite IH, scanStep_field, emittedFields_cons.
    destruct (fieldOfLine line) as [f|]; [|reflexivity].
    cbn [map]. now rewrite appendAll_cons, string_app_assoc.
Qed.

Lemma generateStruct_fields ls e :
  generateStructFromEnvFile (mkLineReader ls e) =
  match e with
  | Some fault => (EmptyString, Some (withMessage fault "scanning"))
  | None =>
      (structHeader +:+ appendAll (map fieldDecl (emittedFields ls)) +:+ "}" +:+ nl, None)
  end.
Proof.
  unfold generateStructFromEnvFile. cbn [lines err].
  destruct e as [fault|]; [reflexivity|].
  now rewrite scanLoop_fields, string_app_empty_l, string_app_assoc.
Qed.

Lemma emittedFields_app l1 l2 :
  emittedFields (l1 ++ l2) = emittedFields l1 ++ emittedFields l2.
Proof. apply omap_app. Qed.

Lemma emittedFields_valid ls :
  emittedFields ls =
  map (fun line => mkFieldSpec (toCamelCase (keyOfLine line)) (keyOfLine line))
      (List.filter validLine ls).
Proof.
  induction ls as [|line ls IH]; [reflexivity|].
  rewrite emittedFields_cons, IH, fieldOfLine_valid. cbn [List.filter].
  now destruct (validLine line).
Qed.

Lemma emittedFields_name ls f :
  In f (emittedFields ls) -> goFieldName f = toCamelCase (key f).
Proof.
  rewrite emittedFields_valid. intros (line & <- & _)%in_map_iff. reflexivity.
Qed.

(** ** The Name Formatter and the Struct-Field Synthesizer *)










(** C7: [generateStructFromEnvFile] returns an error exactly when the line
    reader reports one once the scan is over; the error is then that fault
    wrapped with the context [scanning], and the text returned with it is
    empty. *)
Theorem generateStruct_error_iff_scan_fault (r : lineReader) :
  (snd (generateStructFromEnvFile r) <> None <-> err r <> None)
  /\ (forall fault, err r = Some fault ->
        generateStructFromEnvFile r = (EmptyString, Some (errors.Wrap fault "scanning")))
  /\ (err r = None -> exists text, generateStructFromEnvFile r = (text, None)).
Proof.
  destruct r as [ls e]. rewrite generateStruct_fields. cbn [err].
  destruct e as [fault|]; simpl.
  - split; [easy|]. split; [|discriminate]. now intros ? [= <-].
  - split; [easy|]. split; [discriminate|]. intros _. now eexists.
Qed.

Lemma generateStruct_error_iff_scan_fault_witness :
  err (mkLineReader ["invalid"; "var=value"] (Some (errors.New "error")))
  = Some (errors.New "error")
  /\ generateStructFromEnvFile
       (mkLineReader ["invalid"; "var=value"] (Some (errors.New "error")))
     = (EmptyString, Some (errors.Wrap (errors.New "error") "scanning"))
  /\ Error (errors.Wrap (errors.New "error") "scanning") = "scanning: error".
Proof.
  split; [reflexivity|]. split; [|reflexivity].
  apply (proj1 (proj2 (generateStruct_error_iff_scan_fault
           (mkLineReader ["invalid"; "var=value"] (Some (errors.New "error")))))).
  reflexivity.
Defined.


(** ** The generator *)

Section GeneratorFacts.

Context {W : Type}.
Variable fsProvider : fileSystem W.
Variable templateProcessorProvider : templateProcessor W.
Variable formatterProvider : formatter W.
Variable lr : File W -> W -> lineReader * W.

Local Abbreviation GenerateDefault fs :=
  (GenerateConfigPackage fs templateProcessorProvider formatterProvider lr).
Local Abbreviation GenerateFromEnvFile fs :=
  (GenerateConfigPackageFromEnvFile fs templateProcessorProvider formatterProvider lr).
Local Abbreviation mainFile fs :=
  (generateConfigReaderMainFile fs templateProcessorProvider formatterProvider lr).
Local Abbreviation unitTestFile fs :=
  (generateConfigReaderUnitTestFile fs templateProcessorProvider).

Ltac unfold_steps :=
  unfold GenerateConfigPackage, GenerateConfigPackageFromEnvFile,
    generateConfigReaderFiles, generateConfigReaderFilesFromEnvFile,
    generateEnvFile, generateConfigReaderUnitTestFile, generateConfigReaderMainFile,
    generateConfigStructFromEnvFile, writeFileFromTemplate, formatGoFile,
    defer, bind, call, ret in *.

(** Case analysis on the outcome of every call, in the order of the run. *)
Ltac case_call :=
  match goal with
  | H : context [match ?x with _ => _ end] |- _ => destruct x eqn:?
  | |- context [match ?x with _ => _ end] => destruct x eqn:?
  end.

Ltac all_paths := repeat (case_call; simplify_eq).

Lemma mainFile_path g envFilePath w path w' t :
  mainFile fsProvider g envFilePath w = (path, None, w', t) ->
  path = packageName g +:+ "/" +:+ configReadFileName.
Proof. intros H. unfold_steps. all_paths; reflexivity. Qed.

Lemma unitTestFile_path g w path w' t :
  unitTestFile fsProvider g w = (path, None, w', t) ->
  path = packageName g +:+ "/" +:+ configReaderUnitTestFileName.
Proof. intros H. unfold_steps. all_paths; reflexivity. Qed.

(** C1: a run of [GenerateConfigPackage] that returns without error
    returns the three paths [<package>/config.go], [<package>/config_test.go]
    and [.env], in this order; a run of [GenerateConfigPackageFromEnvFile]
    that returns without error returns the first two of them and no path
    of a sample environment file. *)
Theorem generated_paths (g : generator) (envFilePath : string) (w : W) :
  (forall files w' t,
      GenerateDefault fsProvider g w = (files, None, w', t) ->
      files = [packageName g +:+ "/" +:+ configReadFileName;
               packageName g +:+ "/" +:+ configReaderUnitTestFileName;
               envFileName])
  /\ (forall files w' t,
      GenerateFromEnvFile fsProvider g envFilePath w = (files, None, w', t) ->
      files = [packageName g +:+ "/" +:+ configReadFileName;
               packageName g +:+ "/" +:+ configReaderUnitTestFileName]).
Proof.
  split; intros files w' t H;
    unfold GenerateConfigPackage, GenerateConfigPackageFromEnvFile,
      generateConfigReaderFiles, generateConfigReaderFilesFromEnvFile,
      bind, call, ret in H;
    all_paths;
    repeat match goal with
      | H : mainFile _ _ _ _ = _ |- _ => apply mainFile_path in H
      | H : unitTestFile _ _ _ = _ |- _ => apply unitTestFile_path in H
      end;
    subst; reflexivity.
Qed.

(** C10: when [GenerateConfigPackage] or [GenerateConfigPackageFromEnvFile]
    returns an error, the list of paths it returns is nil, whatever was
    written before the failing step; so it is already for the two functions
    they delegate to. *)
Theorem error_returns_no_paths (g : generator) (envFilePath : string) (w : W) :
  (forall files e w' t, GenerateDefault fsProvider g w = (files, Some e, w', t) -> files = [])
  /\ (forall files e w' t,
        GenerateFromEnvFile fsProvider g envFilePath w = (files, Some e, w', t) -> files = [])
  /\ (forall files e w' t,
        generateConfigReaderFiles fsProvider templateProcessorProvider formatterProvider lr g w
        = (files, Some e, w', t) -> files = [])
  /\ (forall files e w' t,
        generateConfigReaderFilesFromEnvFile fsProvider templateProcessorProvider
          formatterProvider lr g envFilePath w
        = (files, Some e, w', t) -> files = []).
Proof.
  repeat split; intros files e w' t H.
  1, 2: unfold GenerateConfigPackage, GenerateConfigPackageFromEnvFile, bind, ret in H;
    all_paths; reflexivity.
  all: unfold generateConfigReaderFiles, generateConfigReaderFilesFromEnvFile,
         bind, call, ret in H;
    all_paths; reflexivity.
Qed.

(** The first call of [generateConfigReaderMainFile] creates the main file. *)
Lemma mainFile_starts g envFilePath w :
  exists r w' res t,
    mainFile fsProvider g envFilePath w
    = (r, w', EvCreate (packageName g +:+ "/" +:+ configReadFileName) res :: t).
Proof.
  unfold generateConfigReaderMainFile. unfold bind at 1. unfold call at 1.
  destruct (Create fsProvider _ w) as [[err|f] w1].
  - unfold ret. cbn [app]. now eexists _, _, _, _.
  - cbv beta iota. destruct (defer _ _ w1) as [[r w2] t].
    cbn [app]. now eexists _, _, _, _.
Qed.

(** C5: when [Mkdir] fails with an error that is not an "already exists"
    error, both operations return that error wrapped with [creating dir
    <package>] and make no other call: no file is created.  When the error
    is an "already exists" error the run goes on to create the main file and
    is, but for the recorded outcome of [Mkdir], the run in which [Mkdir]
    succeeded. *)
Theorem mkdir_failure (g : generator) (envFilePath : string) (w w1 : W) (e : error) :
  Mkdir fsProvider (packageName g) w = (Some e, w1) ->
  (os.IsExist e = false ->
     GenerateDefault fsProvider g w
     = ([], Some (errors.Wrap e ("creating dir " +:+ packageName g)), w1,
        [EvMkdir (packageName g) (Some e)])
     /\ GenerateFromEnvFile fsProvider g envFilePath w
        = ([], Some (errors.Wrap e ("creating dir " +:+ packageName g)), w1,
           [EvMkdir (packageName g) (Some e)])
     /\ existsb createsFile [EvMkdir (packageName g) (Some e)] = false)
  /\ (os.IsExist e = true ->
       (exists r w' res t,
          GenerateDefault (mkdirSucceeds fsProvider) g w
          = (r, w', EvMkdir (packageName g) None
                    :: EvCreate (packageName g +:+ "/" +:+ configReadFileName) res :: t)
          /\ GenerateDefault fsProvider g w
             = (r, w', EvMkdir (packageName g) (Some e)
                       :: EvCreate (packageName g +:+ "/" +:+ configReadFileName) res :: t))
       /\ (exists r w' res t,
          GenerateFromEnvFile (mkdirSucceeds fsProvider) g envFilePath w
          = (r, w', EvMkdir (packageName g) None
                    :: EvCreate (packageName g +:+ "/" +:+ configReadFileName) res :: t)
          /\ GenerateFromEnvFile fsProvider g envFilePath w
             = (r, w', EvMkdir (packageName g) (Some e)
                       :: EvCreate (packageName g +:+ "/" +:+ configReadFileName) res :: t))).
Proof.
  intros HM. split; intros HE.
  - unfold GenerateConfigPackage, GenerateConfigPackageFromEnvFile,
      generateConfigReaderFiles, generateConfigReaderFilesFromEnvFile,
      bind, call, ret, mkdirFailed.
    rewrite HM, HE. simpl. repeat split; reflexivity.
  - destruct (mainFile_starts g EmptyString w1) as (r1 & w1' & res1 & t1 & H1).
    destruct (mainFile_starts g envFilePath w1) as (r2 & w2' & res2 & t2 & H2).
    unfold GenerateConfigPackage, GenerateConfigPackageFromEnvFile,
      generateConfigReaderFiles, generateConfigReaderFilesFromEnvFile,
      bind, call, ret, mkdirFailed.
    cbn [Mkdir mkdirSucceeds]. rewrite HM. cbn [snd]. cbv beta iota.
    rewrite HE. cbn [negb]. cbv beta iota.
    change (mainFile (mkdirSucceeds fsProvider)) with (mainFile fsProvider).
    change (unitTestFile (mkdirSucceeds fsProvider)) with (unitTestFile fsProvider).
    change (generateEnvFile (mkdirSucceeds fsProvider))
      with (generateEnvFile fsProvider).
    rewrite H1, H2. clear H1 H2.
    split; all_paths; cbn [app]; eexists _, _, _, _; split; reflexivity.
Qed.

Ltac case_in H :=
  cbn [app In] in H;
  repeat (destruct H as [H|H]; try discriminate H);
  try contradiction.

Lemma mainFile_open_failure g envFilePath w r w' t e :
  mainFile fsProvider g envFilePath w = (r, w', t) ->
  In (EvOpen envFilePath (Some e)) t ->
  r = (EmptyString, Some (errors.Wrap e ("opening env file " +:+ envFilePath)))
  /\ exists cl,
       t = [EvCreate (packageName g +:+ "/" +:+ configReadFileName) None;
            EvOpen envFilePath (Some e);
            EvClose cl].
Proof.
  intros H Hin. unfold_steps.
  all_paths; case_in Hin; simplify_eq; cbn [app].
  all: split; [reflexivity | now eexists].
Qed.

Lemma unitTestFile_opens_nothing g w r w' t name res :
  unitTestFile fsProvider g w = (r, w', t) -> ~ In (EvOpen name res) t.
Proof.
  intros H Hin. unfold_steps. all_paths; case_in Hin.
Qed.

(** C6: when the call that opens the source environment file fails, the
    run of [GenerateConfigPackageFromEnvFile] ends there: it has made the
    directory and created the main file, it closes that file, no line
    reader is made or scanned, and it returns the open error wrapped with
    [opening env file <path>] and no paths. *)
Theorem open_failure_aborts (g : generator) (envFilePath : string) (w w' : W)
    (r : list string * option error) (t : list Event) (e : error) :
  GenerateFromEnvFile fsProvider g envFilePath w = (r, w', t) ->
  In (EvOpen envFilePath (Some e)) t ->
  r = ([], Some (errors.Wrap e ("opening env file " +:+ envFilePath)))
  /\ ~ In EvLineReader t
  /\ exists mk cl,
       t = [EvMkdir (packageName g) mk;
            EvCreate (packageName g +:+ "/" +:+ configReadFileName) None;
            EvOpen envFilePath (Some e);
            EvClose cl].
Proof.
  intros H Hin.
  unfold GenerateConfigPackageFromEnvFile, generateConfigReaderFilesFromEnvFile,
    bind, call, ret in H.
  all_paths; cbn [app In] in Hin;
    (destruct Hin as [Hin|Hin]; [discriminate Hin|]);
    rewrite ?app_nil_r in Hin; try contradiction;
    try (apply in_app_or in Hin as [Hin|Hin];
         [|exfalso; eapply unitTestFile_opens_nothing; eassumption]);
    match goal with
    | HM : mainFile _ _ _ _ = _ |- _ =>
        destruct (mainFile_open_failure _ _ _ _ _ _ _ HM Hin) as [Hr [cl Ht]]
    end;
    simplify_eq; cbn [app].
  all: split; [reflexivity|].
  all: split; [cbn [In]; intuition discriminate | eexists _, _; reflexivity].
Qed.

End GeneratorFacts.

(** ** The runs of the package's tests *)

Import mocks.

Example Test_formatGoFile :
  runFormatGoFile mfs0 mfr0 "file.go" = None
  /\ runFormatGoFile (setReadFileErr (errors.New "read error") mfs0) mfr0 "file.go"
     = Some "reading go file file.go: read error"
  /\ runFormatGoFile mfs0 (setSourceErr (errors.New "source error") mfr0) "file.go"
     = Some "formating go file file.go: source error"
  /\ runFormatGoFile (setWriteFileErr (errors.New "write error") mfs0) mfr0 "file.go"
     = Some "writing go file file.go: write error".
Proof. repeat split; vm_compute; reflexivity. Qed.

Example TestGenerateConfigPackage :
  observed (runDefault mfs0 mtp0 mfr0 "config")
  = (["config/config.go"; "config/config_test.go"; ".env"], None)
  /\ observed (runDefault (setMkDirErr (errors.New "mkdir error") mfs0) mtp0 mfr0 "config")
     = ([], Some "creating dir config: mkdir error")
  /\ observed (runDefault (setCreateErr (errors.New "create error") mfs0) mtp0 mfr0 "config")
     = ([], Some "creating file config/config.go: create error")
  /\ observed (runDefault mfs0 (setParseErr (errors.New "parse error") mtp0) mfr0 "config")
     = ([], Some "parsing template configReaderMainFile: parse error")
  /\ observed (runDefault mfs0 (setExecuteErr (errors.New "execute error") mtp0) mfr0 "config")
     = ([], Some "executing template configReaderMainFile: execute error")
  /\ observed (runDefault (setCreateUnitTestFileErr (errors.New "create error") mfs0)
                 mtp0 mfr0 "config")
     = ([], Some "creating file config/config_test.go: create error")
  /\ observed (runDefault (setCreateEnvFileErr (errors.New "create error") mfs0)
                 mtp0 mfr0 "config")
     = ([], Some "creating file .env: create error")
  /\ observed (runDefault mfs0
                 (setEnvFileTemplateParseErr (errors.New "template parse error") mtp0)
                 mfr0 "config")
     = ([], Some "parsing template envFile: template parse error").
Proof. repeat split; vm_compute; reflexivity. Qed.

Example TestGenerateConfigPackageFromEnvFile :
  observed (runFromEnvFile mfs0 mtp0 mfr0 mlrTwoLines "config" ".env-local")
  = (["config/config.go"; "config/config_test.go"], None)
  /\ observed (runFromEnvFile (setMkDirErr (errors.New "mkdir error") mfs0) mtp0 mfr0 mlr0
                 "config" ".env-local")
     = ([], Some "creating dir config: mkdir error")
  /\ observed (runFromEnvFile (setOpenErr (errors.New "open error") mfs0) mtp0 mfr0 mlr0
                 "config" ".env-local")
     = ([], Some "opening env file .env-local: open error")
  /\ observed (runFromEnvFile mfs0 mtp0 mfr0 (setScanErr (errors.New "error") mlrTwoLines)
                 "config" ".env-local")
     = ([], Some "generating struct from env file .env-local: scanning: error")
  /\ observed (runFromEnvFile (setCreateUnitTestFileErr (errors.New "create error") mfs0)
                 mtp0 mfr0 mlrTwoLines "config" ".env-local")
     = ([], Some "creating file config/config_test.go: create error")
  /\ observed (runFromEnvFile mfs0
                 (setConfigReaderUnitTestFileParseErr (errors.New "parse error") mtp0)
                 mfr0 mlr0 "config" ".env-local")
     = ([], Some "parsing template configReaderUnitTestFile: parse error")
  /\ observed (runFromEnvFile mfs0 mtp0 (setSourceErr (errors.New "source error") mfr0)
                 mlrTwoLines "config" ".env-local")
     = ([], Some "formating go file config/config.go: source error").
Proof. repeat split; vm_compute; reflexivity. Qed.

(** ** The generator on the runs of the tests *)

Lemma generated_paths_witness :
  (exists files t,
      GenerateConfigPackage (fs mfs0) (tp mtp0) (fmt mfr0) (lr mlr0)
        (NewGenerator "config") tt = (files, None, tt, t)
      /\ files = ["config/config.go"; "config/config_test.go"; ".env"])
  /\ (exists files t,
      GenerateConfigPackageFromEnvFile (fs mfs0) (tp mtp0) (fmt mfr0) (lr mlrTwoLines)
        (NewGenerator "config") ".env-local" tt = (files, None, tt, t)
      /\ files = ["config/config.go"; "config/config_test.go"]).
Proof.
  split; eexists _, _; (split; [vm_compute; reflexivity|]).
  - eapply (proj1 (generated_paths (fs mfs0) (tp mtp0) (fmt mfr0) (lr mlr0)
                     (NewGenerator "config") EmptyString tt)).
    vm_compute; reflexivity.
  - eapply (proj2 (generated_paths (fs mfs0) (tp mtp0) (fmt mfr0) (lr mlrTwoLines)
                     (NewGenerator "config") ".env-local" tt)).
    vm_compute; reflexivity.
Defined.

Lemma error_returns_no_paths_witness :
  exists files e t,
    GenerateConfigPackage (fs (setCreateEnvFileErr (errors.New "create error") mfs0))
      (tp mtp0) (fmt mfr0) (lr mlr0) (NewGenerator "config") tt = (files, Some e, tt, t)
    /\ existsb createsFile t = true
    /\ files = [].
Proof.
  eexists _, _, _. split; [vm_compute; reflexivity|]. split; [reflexivity|].
  eapply (proj1 (error_returns_no_paths
                   (fs (setCreateEnvFileErr (errors.New "create error") mfs0))
                   (tp mtp0) (fmt mfr0) (lr mlr0) (NewGenerator "config") EmptyString tt)).
  vm_compute; reflexivity.
Defined.

Lemma mkdir_failure_witness :
  (Mkdir (fs (setMkDirErr (errors.New "mkdir error") mfs0)) "config" tt
   = (Some (errors.New "mkdir error"), tt)
   /\ os.IsExist (errors.New "mkdir error") = false
   /\ GenerateConfigPackage (fs (setMkDirErr (errors.New "mkdir error") mfs0))
        (tp mtp0) (fmt mfr0) (lr mlr0) (NewGenerator "config") tt
      = ([], Some (errors.Wrap (errors.New "mkdir error") "creating dir config"), tt,
         [EvMkdir "config" (Some (errors.New "mkdir error"))]))
  /\ (Mkdir (fs (setMkDirErr (PathError "mkdir" "config" EEXIST) mfs0)) "config" tt
      = (Some (PathError "mkdir" "config" EEXIST), tt)
      /\ os.IsExist (PathError "mkdir" "config" EEXIST) = true
      /\ exists r w' res t,
           GenerateConfigPackage (fs (setMkDirErr (PathError "mkdir" "config" EEXIST) mfs0))
             (tp mtp0) (fmt mfr0) (lr mlr0) (NewGenerator "config") tt
           = (r, w', EvMkdir "config" (Some (PathError "mkdir" "config" EEXIST))
                     :: EvCreate "config/config.go" res :: t)).
Proof.
  split; (split; [reflexivity|]); (split; [reflexivity|]).
  - apply (proj1 (proj1 (mkdir_failure
             (fs (setMkDirErr (errors.New "mkdir error") mfs0)) (tp mtp0) (fmt mfr0) (lr mlr0)
             (NewGenerator "config") ".env-local" tt tt (errors.New "mkdir error") eq_refl)
           eq_refl)).
  - destruct (proj1 (proj2 (mkdir_failure
             (fs (setMkDirErr (PathError "mkdir" "config" EEXIST) mfs0))
             (tp mtp0) (fmt mfr0) (lr mlr0)
             (NewGenerator "config") ".env-local" tt tt
             (PathError "mkdir" "config" EEXIST) eq_refl) eq_refl))
      as (r & w' & res & t & _ & H).
    exists r, w', res, t. exact H.
Defined.

Lemma open_failure_aborts_witness :
  exists r t,
    GenerateConfigPackageFromEnvFile
      (fs (setOpenErr (errors.New "open error") mfs0)) (tp mtp0) (fmt mfr0) (lr mlr0)
      (NewGenerator "config") ".env-local" tt = (r, tt, t)
    /\ In (EvOpen ".env-local" (Some (errors.New "open error"))) t
    /\ r = ([], Some (errors.Wrap (errors.New "open error") "opening env file .env-local"))
    /\ ~ In EvLineReader t.
Proof.
  eexists _, _. split; [vm_compute; reflexivity|].
  split; [right; right; left; reflexivity|].
  match goal with
  | |- ?r = _ /\ ~ In _ ?t =>
      destruct (open_failure_aborts (fs (setOpenErr (errors.New "open error") mfs0))
                  (tp mtp0) (fmt mfr0) (lr mlr0) (NewGenerator "config") ".env-local"
                  tt tt r t (errors.New "open error")) as (Hr & Hn & _)
  end.
  - vm_compute; reflexivity.
  - right; right; left; reflexivity.
  - split; assumption.
Defined.

(** * Further properties *)

(** ** string.go *)

Lemma toLowerByte_idem c :
  strings.toLowerByte (strings.toLowerByte c) = strings.toLowerByte c
  /\ strings.toLowerByte (strings.toUpperByte c) = strings.toLowerByte c.
Proof. by_cases_on_byte c. Qed.

Lemma ToLower_idem s : strings.ToLower (strings.ToLower s) = strings.ToLower s.
Proof.
  induction s as [|c s IH]; simpl; [reflexivity|].
  now rewrite (proj1 (toLowerByte_idem c)), IH.
Qed.

Lemma ToLower_app a b :
  strings.ToLower (a +:+ b) = strings.ToLower a +:+ strings.ToLower b.
Proof.
  induction a as [|c a IH]; [reflexivity|].
  rewrite string_app_cons. simpl. now rewrite IH, string_app_cons.
Qed.

Lemma ToLower_titleFrom s : forall isMidWord wasMid,
  strings.ToLower (cases.titleFrom isMidWord wasMid s) = strings.ToLower s.
Proof.
  induction s as [|c s IH]; intros m w; simpl; [reflexivity|].
  destruct (cases.isCased c); simpl; rewrite IH; [|reflexivity].
  destruct (toLowerByte_idem c) as [Hl Hu].
  destruct (if w && cases.isMid c then false else m); now rewrite ?Hl, ?Hu.
Qed.

Lemma Cut_ToLower s :
  strings.Cut (strings.ToLower s) underscore =
  match strings.Cut s underscore with
  | Some (before, after) => Some (strings.ToLower before, strings.ToLower after)
  | None => None
  end.
Proof.
  induction s as [|c s IH]; simpl; [reflexivity|].
  rewrite toLowerByte_underscore.
  destruct (Ascii.eqb c underscore); [reflexivity|].
  rewrite IH. now destruct (strings.Cut s underscore) as [[b a]|].
Qed.

Lemma SplitN_ToLower n : forall s,
  strings.SplitN (strings.ToLower s) underscore n
  = map strings.ToLower (strings.SplitN s underscore n).
Proof.
  induction n as [|[|n] IH]; intros s; [reflexivity | reflexivity |].
  rewrite !SplitN_more, Cut_ToLower.
  destruct (strings.Cut s underscore) as [[b a]|]; [|reflexivity].
  cbn [map]. now rewrite IH.
Qed.

Lemma toCamelCase_ToLower s : toCamelCase (strings.ToLower s) = toCamelCase s.
Proof.
  rewrite !toCamelCase_unfold. unfold strings.Split.
  rewrite ToLower_Count, SplitN_ToLower, map_map.
  f_equal. apply map_ext. intros part. now rewrite ToLower_idem.
Qed.

(** X1: the identifier does not depend on the case of the letters of the
    key: two keys that are equal once lower-cased get the same identifier. *)
Theorem toCamelCase_ignores_case (s s' : string) :
  strings.ToLower s = strings.ToLower s' -> toCamelCase s = toCamelCase s'.
Proof.
  intros H. rewrite <- (toCamelCase_ToLower s), <- (toCamelCase_ToLower s'). now rewrite H.
Qed.

Lemma toCamelCase_ignores_case_witness :
  strings.ToLower "DB_HOST" = strings.ToLower "db_Host"
  /\ toCamelCase "DB_HOST" = toCamelCase "db_Host".
Proof.
  split; [reflexivity|]. apply (toCamelCase_ignores_case "DB_HOST" "db_Host"). reflexivity.
Defined.

Lemma Cut_app_None a b sep :
  strings.Count a sep = 0 -> strings.Cut (a +:+ String sep b) sep = Some (a, b).
Proof.
  induction a as [|c a IH]; intros H.
  - rewrite string_app_empty_l. simpl. now rewrite Ascii.eqb_refl.
  - rewrite string_app_cons. simpl in *.
    destruct (Ascii.eqb c sep); [discriminate|]. now rewrite IH.
Qed.

Lemma Cut_app_Some a b sep x a' :
  strings.Cut a sep = Some (x, a') ->
  strings.Cut (a +:+ String sep b) sep = Some (x, a' +:+ String sep b).
Proof.
  revert x; induction a as [|c a IH]; intros x H; [discriminate|].
  rewrite string_app_cons. simpl in *.
  destruct (Ascii.eqb c sep); [now inversion H|].
  destruct (strings.Cut a sep) as [[y a'']|]; [|discriminate].
  inversion H; subst. now rewrite (IH y eq_refl).
Qed.

Lemma SplitN_app sep b m n : forall a,
  strings.Count a sep = n ->
  strings.SplitN (a +:+ String sep b) sep (S n + S m)
  = strings.SplitN a sep (S n) ++ strings.SplitN b sep (S m).
Proof.
  induction n as [|n IH]; intros a Hn.
  - change (1 + S m) with (S (S m)). rewrite SplitN_more, Cut_app_None by assumption.
    reflexivity.
  - change (S (S n) + S m) with (S (S (n + S m))). rewrite !SplitN_more.
    destruct (strings.Cut a sep) as [[x a']|] eqn:HC.
    + rewrite (Cut_app_Some _ b _ _ _ HC).
      destruct (Count_Cut _ _ _ _ HC) as [Hc _].
      change (S (n + S m)) with (S n + S m). rewrite IH by lia. reflexivity.
    + apply Cut_None in HC. lia.
Qed.

Lemma appendAll_app l1 l2 : appendAll (l1 ++ l2) = appendAll l1 +:+ appendAll l2.
Proof.
  induction l1 as [|x l1 IH]; [reflexivity|].
  cbn [app]. now rewrite !appendAll_cons, IH, string_app_assoc.
Qed.

Lemma Count_sep sep s : strings.Count (String sep s) sep = S (strings.Count s sep).
Proof. cbn [strings.Count]. now rewrite Ascii.eqb_refl. Qed.

(** X2: the identifier of a key [a_b] is the identifier of [a] followed by
    the identifier of [b]; so an ['_'] put before or after a key changes
    nothing. *)
Theorem toCamelCase_underscore (a b : string) :
  toCamelCase (a +:+ String underscore b) = toCamelCase a +:+ toCamelCase b
  /\ toCamelCase (String underscore a) = toCamelCase a
  /\ toCamelCase (a +:+ String underscore EmptyString) = toCamelCase a.
Proof.
  assert (H : forall x y,
             toCamelCase (x +:+ String underscore y) = toCamelCase x +:+ toCamelCase y).
  { intros x y. rewrite !toCamelCase_unfold. unfold strings.Split.
    rewrite Count_app, Count_sep.
    replace (strings.Count x underscore + S (strings.Count y underscore) + 1)
      with (S (strings.Count x underscore) + S (strings.Count y underscore)) by lia.
    rewrite (SplitN_app underscore y _ _ x eq_refl), !Nat.add_1_r.
    now rewrite map_app, appendAll_app. }
  split; [apply H|]. split.
  - change (String underscore a) with (EmptyString +:+ String underscore a).
    rewrite H. reflexivity.
  - rewrite H. change (toCamelCase EmptyString) with EmptyString.
    apply string_app_empty_r.
Qed.

Lemma removeByte_app sep a b :
  removeByte sep (a +:+ b) = removeByte sep a +:+ removeByte sep b.
Proof.
  induction a as [|c a IH]; [reflexivity|].
  rewrite string_app_cons. simpl. destruct (Ascii.eqb c sep); [assumption|].
  now rewrite string_app_cons, IH.
Qed.

Lemma removeByte_absent sep a : strings.Count a sep = 0 -> removeByte sep a = a.
Proof.
  induction a as [|c a IH]; simpl; [reflexivity|].
  destruct (Ascii.eqb c sep); [discriminate|]. intros H. now rewrite IH.
Qed.

Lemma appendAll_SplitN sep n : forall s,
  strings.Count s sep = n -> appendAll (strings.SplitN s sep (S n)) = removeByte sep s.
Proof.
  induction n as [|n IH]; intros s Hn.
  - simpl. rewrite string_app_empty_r. symmetry. now apply removeByte_absent.
  - rewrite SplitN_more. destruct (strings.Cut s sep) as [[b a]|] eqn:HC.
    + destruct (Count_Cut _ _ _ _ HC) as [Hc _].
      destruct (Cut_Some _ _ _ _ HC) as [-> Hb].
      rewrite appendAll_cons, IH by lia.
      rewrite removeByte_app, (removeByte_absent _ _ Hb). simpl.
      now rewrite Ascii.eqb_refl.
    + apply Cut_None in HC. lia.
Qed.

Lemma ToLower_appendAll l :
  strings.ToLower (appendAll l) = appendAll (map strings.ToLower l).
Proof.
  induction l as [|x l IH]; [reflexivity|].
  cbn [map]. now rewrite !appendAll_cons, ToLower_app, IH.
Qed.


(** ** cfg.go: the struct generated from an env file *)

(** X4: the text right of the first ['='] of a line is never read: replacing
    it by any other text, one with further ['='] included, changes neither
    the fields nor the result of the synthesizer. *)
Theorem value_never_read (k v v' : string) (before after : list string)
    (fault : option error) :
  strings.Count k equals = 0 ->
  emittedFields [k +:+ String equals v] = [mkFieldSpec (toCamelCase k) k]
  /\ generateStructFromEnvFile (mkLineReader (before ++ (k +:+ String equals v) :: after) fault)
     = generateStructFromEnvFile
         (mkLineReader (before ++ (k +:+ String equals v') :: after) fault).
Proof.
  intros Hk.
  assert (H : forall x, fieldOfLine (k +:+ String equals x) = Some (mkFieldSpec (toCamelCase k) k)).
  { intros x. unfold fieldOfLine. now rewrite (Cut_app_None k x equals Hk). }
  split.
  - rewrite emittedFields_cons, H. reflexivity.
  - rewrite !generateStruct_fields, !emittedFields_app, !emittedFields_cons, !H. reflexivity.
Qed.

Lemma value_never_read_witness :
  strings.Count "API_KEY" equals = 0
  /\ generateStructFromEnvFile (mkLineReader ([] ++ ("API_KEY" +:+ String equals "s3cr=t") :: []) None)
     = generateStructFromEnvFile
         (mkLineReader ([] ++ ("API_KEY" +:+ String equals EmptyString) :: []) None).
Proof.
  split; [reflexivity|].
  apply (proj2 (value_never_read "API_KEY" "s3cr=t" EmptyString [] [] None eq_refl)).
Defined.

(** X5: the fields come in the order of the lines: the block generated from
    two lists of lines put one after the other is the header, the field lines
    of the first list, those of the second, and the closing brace. *)
Theorem struct_of_appended_lines (ls1 ls2 : list string) :
  exists body1 body2,
    generateStructFromEnvFile (mkLineReader ls1 None)
    = (structHeader +:+ body1 +:+ "}" +:+ nl, None)
    /\ generateStructFromEnvFile (mkLineReader ls2 None)
       = (structHeader +:+ body2 +:+ "}" +:+ nl, None)
    /\ generateStructFromEnvFile (mkLineReader (ls1 ++ ls2) None)
       = (structHeader +:+ (body1 +:+ body2) +:+ "}" +:+ nl, None).
Proof.
  exists (appendAll (map fieldDecl (emittedFields ls1))),
         (appendAll (map fieldDecl (emittedFields ls2))).
  rewrite !generateStruct_fields, emittedFields_app, map_app, appendAll_app.
  repeat split.
Qed.

(** ** Traces *)

Lemma abortsAtFailure_app t1 t2 :
  existsb failed t1 = false -> abortsAtFailure (t1 ++ t2) = abortsAtFailure t2.
Proof.
  induction t1 as [|ev t1 IH]; [reflexivity|]. cbn [existsb app abortsAtFailure].
  destruct (failed ev); [discriminate|]. exact IH.
Qed.

Lemma count_app (f : Event -> bool) t1 t2 :
  length (List.filter f (t1 ++ t2)) = length (List.filter f t1) + length (List.filter f t2).
Proof. now rewrite List.filter_app, List.length_app. Qed.

Lemma failed_Mkdir dirName err :
  failed (EvMkdir dirName err) = match mkdirFailed err with Some _ => true | None => false end.
Proof. destruct err as [e|]; [|reflexivity]. simpl. now destruct (os.IsExist e). Qed.

(** ** The generator, step by step *)

Section GeneratorRuns.

Context {W : Type}.
Variable fsProvider : fileSystem W.
Variable templateProcessorProvider : templateProcessor W.
Variable formatterProvider : formatter W.
Variable lr : File W -> W -> lineReader * W.

Local Abbreviation Default :=
  (GenerateConfigPackage fsProvider templateProcessorProvider formatterProvider lr).
Local Abbreviation FromEnvFile :=
  (GenerateConfigPackageFromEnvFile fsProvider templateProcessorProvider formatterProvider lr).
Local Abbreviation mainStep :=
  (generateConfigReaderMainFile fsProvider templateProcessorProvider formatterProvider lr).
Local Abbreviation testStep :=
  (generateConfigReaderUnitTestFile fsProvider templateProcessorProvider).
Local Abbreviation envStep := (generateEnvFile fsProvider templateProcessorProvider).

Ltac unfold_run :=
  unfold generateEnvFile, generateConfigReaderUnitTestFile, generateConfigReaderMainFile,
    generateConfigStructFromEnvFile, writeFileFromTemplate, formatGoFile,
    defer, bind, call, ret in *.

Ltac unfold_top :=
  unfold GenerateConfigPackage, GenerateConfigPackageFromEnvFile,
    generateConfigReaderFiles, generateConfigReaderFilesFromEnvFile,
    bind, call, ret in *.

Ltac split_call :=
  match goal with
  | H : context [match ?x with _ => _ end] |- _ => destruct x eqn:?
  end.

Ltac each_run := repeat (split_call; simplify_eq).

(** What every run of a step satisfies; [sample] is as in [allowedCall]. *)
Local Abbreviation stepFacts g envFilePath sample err t :=
  (abortsAtFailure t = true
   /\ (err = None -> existsb failed t = false)
   /\ length (List.filter isClose t) = length (List.filter opensFile t)
   /\ (forall e, err = Some e ->
         exists cause msg, e = withMessage cause msg /\ In msg (errorContexts g envFilePath))
   /\ Forall (allowedCall g envFilePath sample) t).

Ltac step_facts :=
  cbn [app]; split; [|split; [|split; [|split]]];
  [ reflexivity
  | intros Hnone; first [discriminate Hnone | reflexivity]
  | reflexivity
  | intros ? Hsome;
    first [ discriminate Hsome
          | injection Hsome as <-; eexists _, _; split;
            [reflexivity | unfold errorContexts; cbv zeta; cbn [In]; auto 20] ]
  | repeat (apply List.Forall_cons; [unfold allowedCall; cbv zeta; auto 6|]);
    apply List.Forall_nil ].

Lemma mainStep_facts g envFilePath sample w path err w' t :
  mainStep g envFilePath w = (path, err, w', t) -> stepFacts g envFilePath sample err t.
Proof.
  intros H. unfold_run.
  destruct (String.eqb envFilePath EmptyString) eqn:E; cbn [negb] in H.
  - each_run; step_facts.
  - apply String.eqb_neq in E.
    each_run; step_facts.
Qed.

Lemma testStep_facts g envFilePath sample w path err w' t :
  testStep g w = (path, err, w', t) -> stepFacts g envFilePath sample err t.
Proof. intros H. unfold_run. each_run; step_facts. Qed.

Lemma envStep_facts g envFilePath w err w' t :
  envStep g w = (err, w', t) -> stepFacts g envFilePath true err t.
Proof. intros H. unfold_run. each_run; step_facts. Qed.

Lemma facts_seq g envFilePath sample t1 err t2 :
  stepFacts g envFilePath sample (@None error) t1 ->
  stepFacts g envFilePath sample err t2 ->
  stepFacts g envFilePath sample err (t1 ++ t2).
Proof.
  intros (A1 & C1 & B1 & _ & F1) (A2 & C2 & B2 & E2 & F2).
  specialize (C1 eq_refl). split; [|split; [|split; [|split]]].
  - now rewrite abortsAtFailure_app.
  - intros Hn. rewrite existsb_app, C1. now apply C2.
  - rewrite !count_app. lia.
  - exact E2.
  - apply Forall_app. now split.
Qed.

Lemma facts_mkdir g envFilePath sample err :
  stepFacts g envFilePath sample
    match mkdirFailed err with
    | Some e => Some (errors.Wrap e ("creating dir " +:+ packageName g))
    | None => None
    end
    [EvMkdir (packageName g) err].
Proof.
  split; [|split; [|split; [|split]]].
  - cbn [abortsAtFailure]. now destruct (failed _).
  - cbn [existsb]. rewrite failed_Mkdir. now destruct (mkdirFailed err).
  - reflexivity.
  - intros e. destruct (mkdirFailed err); [|discriminate]. intros [= <-].
    eexists _, _. split; [reflexivity|]. left. reflexivity.
  - apply List.Forall_cons; [reflexivity | apply List.Forall_nil].
Qed.

Ltac use_facts envFilePath sample :=
  repeat match goal with
    | H : mainStep _ _ _ = _ |- _ => apply (mainStep_facts _ _ sample) in H
    | H : testStep _ _ = _ |- _ => apply (testStep_facts _ envFilePath sample) in H
    | H : envStep _ _ = _ |- _ => apply (envStep_facts _ envFilePath) in H
    end;
  match goal with
  | Hm : mkdirFailed ?err = _ |- context [EvMkdir (packageName ?g) ?err] =>
      pose proof (facts_mkdir g envFilePath sample err) as Hmkdir; rewrite Hm in Hmkdir
  end;
  rewrite ?app_nil_r; cbn [snd];
  repeat first [ assumption | apply facts_seq ].

Lemma Default_facts g w r w' t :
  Default g w = (r, w', t) -> stepFacts g EmptyString true (snd r) t.
Proof. intros H. unfold_top. each_run; use_facts EmptyString true. Qed.

Lemma FromEnvFile_facts g envFilePath w r w' t :
  FromEnvFile g envFilePath w = (r, w', t) -> stepFacts g envFilePath false (snd r) t.
Proof. intros H. unfold_top. each_run; use_facts envFilePath false. Qed.

(** X6: a run stops at the first call that fails: after it come only the
    deferred calls of [Close]; and a run that returns no error has had no
    failed call at all. *)
Theorem run_aborts_at_first_failure (g : generator) (envFilePath : string) (w w' : W)
    (r : list string * option error) (t : list Event) :
  Default g w = (r, w', t) \/ FromEnvFile g envFilePath w = (r, w', t) ->
  abortsAtFailure t = true
  /\ (snd r = None -> existsb failed t = false)
  /\ (existsb failed t = true -> snd r <> None).
Proof.
  intros [H|H]; [apply Default_facts in H | apply FromEnvFile_facts in H];
    destruct H as (A & C & _); (split; [exact A|]); (split; [exact C|]);
    intros Hf Hn; rewrite (C Hn) in Hf; discriminate.
Qed.


(** X8: every error that a run returns is a wrapped one, [<context>: <cause>],
    and its context is one of the fifteen of [errorContexts]. *)
Theorem errors_carry_context (g : generator) (envFilePath : string) (w w' : W)
    (files : list string) (e : error) (t : list Event) :
  (Default g w = (files, Some e, w', t) ->
     exists cause msg,
       e = withMessage cause msg
       /\ Error e = msg +:+ ": " +:+ Error cause
       /\ In msg (errorContexts g EmptyString))
  /\ (FromEnvFile g envFilePath w = (files, Some e, w', t) ->
       exists cause msg,
         e = withMessage cause msg
         /\ Error e = msg +:+ ": " +:+ Error cause
         /\ In msg (errorContexts g envFilePath)).
Proof.
  split; intros H; [apply Default_facts in H | apply FromEnvFile_facts in H];
    destruct H as (_ & _ & _ & E & _);
    destruct (E e eq_refl) as (cause & msg & -> & Hin);
    exists cause, msg; (split; [reflexivity|]); (split; [reflexivity|]); exact Hin.
Qed.

(** X9: the calls of a run of [GenerateConfigPackageFromEnvFile] are the
    allowed ones: it makes the directory of the package, creates the main and
    the test file and no other, the sample environment file in particular
    not; it reads and writes the main file only; it opens the environment
    file it was given and no other. *)
Theorem FromEnvFile_calls (g : generator) (envFilePath : string) (w w' : W)
    (r : list string * option error) (t : list Event) :
  FromEnvFile g envFilePath w = (r, w', t) ->
  Forall (allowedCall g envFilePath false) t
  /\ (forall name res, In (EvCreate name res) t ->
        name = packageName g +:+ "/" +:+ configReadFileName
        \/ name = packageName g +:+ "/" +:+ configReaderUnitTestFileName)
  /\ (forall name data res, In (EvWriteFile name data res) t ->
        name = packageName g +:+ "/" +:+ configReadFileName)
  /\ (forall name res, In (EvOpen name res) t -> name = envFilePath).
Proof.
  intros H. apply FromEnvFile_facts in H. destruct H as (_ & _ & _ & _ & F).
  split; [exact F|]. rewrite List.Forall_forall in F.
  split; [|split].
  - intros name res Hin. destruct (F _ Hin) as [Hn|[Hn|[Hs _]]]; auto. discriminate Hs.
  - intros name data res Hin. exact (F _ Hin).
  - intros name res Hin. exact (proj1 (F _ Hin)).
Qed.

(** X10: a run of [GenerateConfigPackage] never opens a file and never makes
    a line reader: it reads no environment file; it creates the main file,
    the test file and the sample environment file and no other, and writes
    the main file only. *)
Theorem Default_calls (g : generator) (w w' : W)
    (r : list string * option error) (t : list Event) :
  Default g w = (r, w', t) ->
  (forall name res, ~ In (EvOpen name res) t)
  /\ ~ In EvLineReader t
  /\ (forall name res, In (EvCreate name res) t ->
        name = packageName g +:+ "/" +:+ configReadFileName
        \/ name = packageName g +:+ "/" +:+ configReaderUnitTestFileName
        \/ name = envFileName)
  /\ (forall name data res, In (EvWriteFile name data res) t ->
        name = packageName g +:+ "/" +:+ configReadFileName).
Proof.
  intros H. apply Default_facts in H. destruct H as (_ & _ & _ & _ & F).
  rewrite List.Forall_forall in F. split; [|split; [|split]].
  - intros name res Hin. destruct (F _ Hin) as [_ Hne]. now apply Hne.
  - intros Hin. now apply (F _ Hin).
  - intros name res Hin. destruct (F _ Hin) as [Hn|[Hn|[_ Hn]]]; auto.
  - intros name data res Hin. exact (F _ Hin).
Qed.

Lemma mainStep_success g envFilePath w path w' t :
  mainStep g envFilePath w = (path, None, w', t) ->
  exists pre data cl,
    t = EvCreate (packageName g +:+ "/" +:+ configReadFileName) None
        :: pre
        ++ [EvParse configReaderMainFileTemplateName None; EvExecute None;
            EvReadFile (packageName g +:+ "/" +:+ configReadFileName) None;
            EvSource None;
            EvWriteFile (packageName g +:+ "/" +:+ configReadFileName) data None;
            EvClose cl]
    /\ ((envFilePath = EmptyString /\ pre = [])
        \/ (envFilePath <> EmptyString
            /\ exists cl0, pre = [EvOpen envFilePath None; EvLineReader; EvClose cl0])).
Proof.
  intros H. unfold_run.
  destruct (String.eqb envFilePath EmptyString) eqn:E; cbn [negb] in H.
  - apply String.eqb_eq in E. each_run. cbn [app].
    eexists [], _, _. split; [reflexivity|]. left. now split.
  - apply String.eqb_neq in E. each_run. cbn [app].
    eexists [_; _; _], _, _. split; [reflexivity|]. right. split; [exact E|]. now eexists.
Qed.

Lemma testStep_success g w path w' t :
  testStep g w = (path, None, w', t) ->
  exists cl,
    t = [EvCreate (packageName g +:+ "/" +:+ configReaderUnitTestFileName) None;
         EvParse configReaderUnitTestFileTemplateName None; EvExecute None; EvClose cl].
Proof. intros H. unfold_run. each_run. cbn [app]. now eexists. Qed.

Lemma envStep_success g w w' t :
  envStep g w = (None, w', t) ->
  exists cl,
    t = [EvCreate envFileName None; EvParse envFileTemplateName None; EvExecute None;
         EvClose cl].
Proof. intros H. unfold_run. each_run. cbn [app]. now eexists. Qed.

(** X11: with the empty path [GenerateConfigPackageFromEnvFile] is
    [GenerateConfigPackage] without its last step: a failing run is the very
    run of [GenerateConfigPackage], and after a successful one
    [GenerateConfigPackage] only has the sample environment file left to
    write. *)
Theorem empty_path_is_default_without_sample (g : generator) (w w1 : W)
    (r : list string * option error) (t1 : list Event) :
  FromEnvFile g EmptyString w = (r, w1, t1) ->
  match snd r with
  | Some _ => Default g w = (r, w1, t1)
  | None =>
      let '(err, w2, t2) := envStep g w1 in
      Default g w
      = (match err with
         | Some e => ([], Some e)
         | None => (fst r ++ [envFileName], None)
         end, w2, t1 ++ t2)
  end.
Proof.
  intros H. unfold_top.
  each_run; cbn [snd fst];
    repeat match goal with
      | Heq : ?x = _ |- context [?x] => rewrite Heq
      end;
    try reflexivity.
  destruct (envStep g _) as [[[e|] ?] ?]; cbn [app];
    rewrite ?app_nil_r, <- ?app_assoc; reflexivity.
Qed.


(** X13: [run] returns, without error, the paths of the main and the test
    file, followed by the path of the sample environment file exactly when the
    option [EnvFile] is empty; with an error it returns no path. *)
Theorem run_paths (opts : options) (w w' : W)
    (r : list string * option error) (t : list Event) :
  run fsProvider templateProcessorProvider formatterProvider lr opts w = (r, w', t) ->
  fst r =
  match snd r with
  | Some _ => []
  | None =>
      [ConfigPackageName opts +:+ "/" +:+ configReadFileName;
       ConfigPackageName opts +:+ "/" +:+ configReaderUnitTestFileName]
      ++ (if String.eqb (EnvFile opts) EmptyString then [envFileName] else [])
  end.
Proof.
  unfold run. intros H.
  destruct (String.eqb (EnvFile opts) EmptyString); cbn [negb] in H; unfold_top;
    each_run; cbn [fst snd app]; try reflexivity;
    repeat match goal with
      | Hm : mainStep _ _ _ = _ |- _ => apply mainFile_path in Hm
      | Ht : testStep _ _ = _ |- _ => apply unitTestFile_path in Ht
      end;
    subst; reflexivity.
Qed.

(** X14: [formatGoFile] returns nil exactly when it has written the file;
    what it writes, under the path it was given, is the output of the
    formatter for the text it read from that path: it never writes when the
    read or the formatting failed. *)
Theorem formatGoFile_writes_formatted (filePath : string) (w w' : W)
    (r : option error) (t : list Event) :
  formatGoFile fsProvider formatterProvider filePath w = (r, w', t) ->
  (r = None <-> exists data, In (EvWriteFile filePath data None) t)
  /\ (forall name data res, In (EvWriteFile name data res) t ->
        name = filePath
        /\ exists source w1 w2,
             ReadFile fsProvider filePath w = (inr source, w1)
             /\ Source formatterProvider source w1 = (inr data, w2)).
Proof.
  intros H. unfold_run. each_run; cbn [app];
    (split;
     [ split;
       [ intros Hx; first [discriminate Hx | eexists; cbn [In]; eauto 6]
       | intros [data Hin]; cbn [In] in Hin;
         repeat (destruct Hin as [Hin|Hin]; try discriminate Hin);
         first [contradiction | reflexivity] ]
     | intros name data res Hin; cbn [In] in Hin;
       repeat (destruct Hin as [Hin|Hin]; try discriminate Hin);
       first [ contradiction
             | injection Hin as <- <- <-; split; [reflexivity|];
               eexists _, _, _; split; [reflexivity | eassumption] ] ]).
Qed.

(** X15: [writeFileFromTemplate] returns nil exactly when the template was
    executed without error, and it executes only a template that was parsed
    without error. *)
Theorem writeFileFromTemplate_executes_parsed (templateName templateText : string)
    (templateValues : gmap string string) (file : File W) (w w' : W)
    (r : option error) (t : list Event) :
  writeFileFromTemplate templateProcessorProvider templateName templateText
    templateValues file w = (r, w', t) ->
  (r = None <-> In (EvExecute None) t)
  /\ (forall res, In (EvExecute res) t -> In (EvParse templateName None) t)
  /\ (forall e, In (EvParse templateName (Some e)) t ->
        r = Some (errors.Wrap e ("parsing template " +:+ templateName)) /\ length t = 1).
Proof.
  intros H. unfold_run. each_run; cbn [app errOf];
    (split;
     [ split;
       [ intros Hx; first [discriminate Hx | cbn [In]; auto 6]
       | intros Hin; cbn [In] in Hin;
         repeat (destruct Hin as [Hin|Hin]; try discriminate Hin);
         first [contradiction | reflexivity] ]
     | split;
       [ intros res Hin; cbn [In] in Hin;
         repeat (destruct Hin as [Hin|Hin]; try discriminate Hin);
         first [contradiction | cbn [In]; auto 6]
       | intros e0 Hin; cbn [In] in Hin;
         repeat (destruct Hin as [Hin|Hin]; try discriminate Hin);
         first [contradiction | injection Hin as <-; split; reflexivity] ] ]).
Qed.

Lemma mainStep_silent_error g envFilePath w path e w' t :
  mainStep g envFilePath w = (path, Some e, w', t) ->
  existsb failed t = false ->
  envFilePath <> EmptyString
  /\ In EvLineReader t
  /\ exists fault,
       e = errors.Wrap (errors.Wrap fault "scanning")
             ("generating struct from env file " +:+ envFilePath).
Proof.
  intros H Hclean. unfold_run.
  destruct (String.eqb envFilePath EmptyString) eqn:E; cbn [negb] in H.
  - each_run; discriminate Hclean.
  - apply String.eqb_neq in E. each_run; try discriminate Hclean.
    match goal with
    | Hg : generateStructFromEnvFile ?l = (_, Some ?e0) |- _ =>
        destruct l as [ls [fault|]]; rewrite generateStruct_fields in Hg; simplify_eq
    end.
    split; [exact E|]. split; [cbn; auto|]. now eexists.
Qed.

Lemma testStep_loud_error g w path e w' t :
  testStep g w = (path, Some e, w', t) -> existsb failed t = true.
Proof. intros H. unfold_run. each_run; reflexivity. Qed.

Lemma envStep_loud_error g w e w' t :
  envStep g w = (Some e, w', t) -> existsb failed t = true.
Proof. intros H. unfold_run. each_run; reflexivity. Qed.

(** X16: an error without a failed call is a scan fault: when a run returns
    an error although none of its calls failed, the run is one from an
    environment file, a line reader was made, and the error is the fault of
    the scan wrapped as [generating struct from env file <path>: scanning:
    <fault>]; a run of [GenerateConfigPackage] returns an error only after a
    failed call. *)
Theorem silent_error_is_scan_fault (g : generator) (envFilePath : string) (w w' : W)
    (files : list string) (e : error) (t : list Event) :
  (FromEnvFile g envFilePath w = (files, Some e, w', t) ->
     existsb failed t = false ->
     envFilePath <> EmptyString
     /\ In EvLineReader t
     /\ exists fault,
          e = errors.Wrap (errors.Wrap fault "scanning")
                ("generating struct from env file " +:+ envFilePath))
  /\ (Default g w = (files, Some e, w', t) -> existsb failed t = true).
Proof.
  split.
  - intros H Hclean. unfold_top. each_run;
      cbn [app existsb] in Hclean; rewrite failed_Mkdir in Hclean;
      match goal with
      | Hm : mkdirFailed _ = _ |- _ => rewrite Hm in Hclean
      end;
      try discriminate Hclean; cbn [orb] in Hclean;
      rewrite ?app_nil_r, ?existsb_app in Hclean.
    + match goal with
      | Hm : mainStep _ _ _ = _ |- _ =>
          destruct (mainStep_silent_error _ _ _ _ _ _ _ Hm Hclean) as (Hne & Hin & Hf)
      end.
      split; [exact Hne|]. split; [|exact Hf].
      rewrite ?app_nil_r. right. exact Hin.
    + match goal with
      | Ht : testStep _ _ = _ |- _ =>
          apply testStep_loud_error in Ht; rewrite Ht, orb_true_r in Hclean
      end.
      discriminate Hclean.
  - intros H. destruct (existsb failed t) eqn:Hclean; [reflexivity|]. exfalso.
    unfold_top. each_run;
      cbn [app existsb] in Hclean; rewrite failed_Mkdir in Hclean;
      match goal with
      | Hm : mkdirFailed _ = _ |- _ => rewrite Hm in Hclean
      end;
      try discriminate Hclean; cbn [orb] in Hclean;
      rewrite ?app_nil_r, ?existsb_app in Hclean;
      repeat match goal with
        | Ht : testStep _ _ = (_, Some _, _, _) |- _ =>
            apply testStep_loud_error in Ht; rewrite Ht in Hclean
        | He : envStep _ _ = (Some _, _, _) |- _ =>
            apply envStep_loud_error in He; rewrite He in Hclean
        | Hm : mainStep _ _ _ = (_, Some _, _, _) |- _ =>
            apply mainStep_silent_error in Hm;
            [destruct Hm as [Hne _]; now apply Hne | exact Hclean]
        end;
      rewrite ?orb_true_r in Hclean; discriminate Hclean.
Qed.

End GeneratorRuns.

(** ** The further properties on the runs of the tests *)

Local Abbreviation mockDefault m t f :=
  (GenerateConfigPackage (fs m) (tp t) (fmt f) (lr mlr0) (NewGenerator "config") tt).
Local Abbreviation mockFromEnvFile m t f l path :=
  (GenerateConfigPackageFromEnvFile (fs m) (tp t) (fmt f) (lr l) (NewGenerator "config")
     path tt).

Lemma run_aborts_at_first_failure_witness :
  exists r t,
    mockFromEnvFile mfs0 mtp0 (setSourceErr (errors.New "source error") mfr0) mlrTwoLines
      ".env-local" = (r, tt, t)
    /\ existsb failed t = true
    /\ abortsAtFailure t = true
    /\ snd r <> None.
Proof.
  eexists _, _. split; [vm_compute; reflexivity|]. split; [reflexivity|].
  match goal with
  | |- abortsAtFailure ?t = _ /\ snd ?r <> _ =>
      destruct (run_aborts_at_first_failure (fs mfs0) (tp mtp0)
                  (fmt (setSourceErr (errors.New "source error") mfr0)) (lr mlrTwoLines)
                  (NewGenerator "config") ".env-local" tt tt r t) as (A & _ & L)
  end.
  - right. vm_compute; reflexivity.
  - split; [exact A | apply L; reflexivity].
Defined.


Lemma errors_carry_context_witness :
  exists files e t,
    mockDefault (setCreateEnvFileErr (errors.New "create error") mfs0) mtp0 mfr0
    = (files, Some e, tt, t)
    /\ exists cause msg,
         e = withMessage cause msg
         /\ Error e = msg +:+ ": " +:+ Error cause
         /\ In msg (errorContexts (NewGenerator "config") EmptyString).
Proof.
  eexists _, _, _. split; [vm_compute; reflexivity|].
  eapply (proj1 (errors_carry_context
                   (fs (setCreateEnvFileErr (errors.New "create error") mfs0))
                   (tp mtp0) (fmt mfr0) (lr mlr0) (NewGenerator "config") ".env-local"
                   tt tt _ _ _)).
  vm_compute; reflexivity.
Defined.

Lemma FromEnvFile_calls_witness :
  exists r t,
    mockFromEnvFile mfs0 mtp0 mfr0 mlrTwoLines ".env-local" = (r, tt, t)
    /\ forall name res, In (EvCreate name res) t ->
         name = "config" +:+ "/" +:+ configReadFileName
         \/ name = "config" +:+ "/" +:+ configReaderUnitTestFileName.
Proof.
  eexists _, _. split; [vm_compute; reflexivity|].
  refine (proj1 (proj2 (FromEnvFile_calls (fs mfs0) (tp mtp0) (fmt mfr0) (lr mlrTwoLines)
                          (NewGenerator "config") ".env-local" tt tt _ _ _))).
  vm_compute; reflexivity.
Defined.

Lemma Default_calls_witness :
  exists r t,
    mockDefault mfs0 mtp0 mfr0 = (r, tt, t)
    /\ ~ In EvLineReader t.
Proof.
  eexists _, _. split; [vm_compute; reflexivity|].
  refine (proj1 (proj2 (Default_calls (fs mfs0) (tp mtp0) (fmt mfr0) (lr mlr0)
                          (NewGenerator "config") tt tt _ _ _))).
  vm_compute; reflexivity.
Defined.

Lemma empty_path_is_default_without_sample_witness :
  exists r t1,
    mockFromEnvFile mfs0 mtp0 mfr0 mlr0 EmptyString = (r, tt, t1)
    /\ snd r = None
    /\ mockDefault mfs0 mtp0 mfr0
       = (fst r ++ [envFileName], None, tt,
          t1 ++ snd (generateEnvFile (fs mfs0) (tp mtp0) (NewGenerator "config") tt)).
Proof.
  eexists _, _. split; [vm_compute; reflexivity|]. split; [reflexivity|].
  match goal with
  | |- _ = (fst ?r ++ _, _, _, ?t1 ++ _) =>
      pose proof (empty_path_is_default_without_sample (fs mfs0) (tp mtp0) (fmt mfr0)
                    (lr mlr0) (NewGenerator "config") tt tt r t1) as H
  end.
  cbn [snd] in H.
  destruct (generateEnvFile (fs mfs0) (tp mtp0) (NewGenerator "config") tt)
    as [[[e|] []] t2] eqn:HE; [vm_compute in HE; discriminate HE|].
  apply H. vm_compute; reflexivity.
Defined.


Lemma run_paths_witness :
  exists r t,
    run (fs mfs0) (tp mtp0) (fmt mfr0) (lr mlrTwoLines)
      {| ConfigPackageName := "appcfg"; EnvFile := ".env-sample" |} tt = (r, tt, t)
    /\ snd r = None
    /\ fst r = ["appcfg/config.go"; "appcfg/config_test.go"].
Proof.
  eexists _, _. split; [vm_compute; reflexivity|]. split; [reflexivity|].
  refine (run_paths (fs mfs0) (tp mtp0) (fmt mfr0) (lr mlrTwoLines)
            {| ConfigPackageName := "appcfg"; EnvFile := ".env-sample" |} tt tt _ _ _).
  vm_compute; reflexivity.
Defined.

Lemma formatGoFile_writes_formatted_witness :
  exists t,
    formatGoFile (fs mfs0) (fmt mfr0) "file.go" tt = (None, tt, t)
    /\ exists data, In (EvWriteFile "file.go" data None) t.
Proof.
  eexists. split; [vm_compute; reflexivity|].
  refine (proj1 (proj1 (formatGoFile_writes_formatted (fs mfs0) (fmt mfr0) "file.go"
                          tt tt None _ _)) eq_refl).
  vm_compute; reflexivity.
Defined.

Lemma writeFileFromTemplate_executes_parsed_witness :
  exists t,
    writeFileFromTemplate (tp mtp0) envFileTemplateName envFileTemplate ∅
      (asFile newMockFile) tt = (None, tt, t)
    /\ In (EvExecute None) t.
Proof.
  eexists. split; [vm_compute; reflexivity|].
  refine (proj1 (proj1 (writeFileFromTemplate_executes_parsed (tp mtp0) envFileTemplateName
                          envFileTemplate ∅ (asFile newMockFile) tt tt None _ _)) eq_refl).
  vm_compute; reflexivity.
Defined.

Lemma silent_error_is_scan_fault_witness :
  exists files e t,
    mockFromEnvFile mfs0 mtp0 mfr0 (setScanErr (errors.New "error") mlrTwoLines)
      ".env-local" = (files, Some e, tt, t)
    /\ existsb failed t = false
    /\ exists fault,
         e = errors.Wrap (errors.Wrap fault "scanning")
               ("generating struct from env file " +:+ ".env-local").
Proof.
  eexists _, _, _. split; [vm_compute; reflexivity|]. split; [reflexivity|].
  refine (proj2 (proj2 (proj1 (silent_error_is_scan_fault (fs mfs0) (tp mtp0) (fmt mfr0)
                                 (lr (setScanErr (errors.New "error") mlrTwoLines))
                                 (NewGenerator "config") ".env-local" tt tt _ _ _)
                          _ _))).
  - vm_compute; reflexivity.
  - reflexivity.
Defined.
